(** * TB-gen dashboard: a shallow embedding of the page scripts

    The three page scripts ([streamlit_app.py], [app_pages/Phylogeny.py],
    [app_pages/Reference_dataset.py]) are modelled as functions from one
    rerun's inputs (the files on disk and the state of the widgets) to the
    list of elements the script puts on the page and the way the script ends
    (normally or with a Python exception).

    Text is modelled by its UTF-8 byte sequence: Rocq's [string] is a list of
    bytes, so [str.encode("utf-8")] is the identity on the model.  The
    characters the CSV writer looks at (separator, quote, line feed) are
    ASCII, and no byte of a multi-byte UTF-8 sequence is ASCII, so quoting by
    byte and quoting by character agree. *)

From Stdlib Require Import ZArith Lia Ascii String.
From stdpp Require Import base option list gmap strings pretty.

Local Open Scope string_scope.
Local Open Scope list_scope.
Local Open Scope Z_scope.
Local Open Scope stdpp_scope.

(** ** Python outcomes *)

(** The exceptions the scripts can meet.  [RerunException] is the control
    exception [switch_page] raises to make the framework run another page;
    it carries the path of the page to run. *)
Inductive exn : Type :=
| FileNotFoundError
| IsADirectoryError
| PermissionError
| UnicodeDecodeError
| KeyError
| TypeError
| ValueError
| OverflowError
| RerunException (page : string).

Inductive result (A : Type) : Type :=
| Ok (a : A)
| Raise (e : exn).
Arguments Ok {A} a.
Arguments Raise {A} e.

#[export] Instance result_ret : MRet result := fun A a => Ok a.

#[export] Instance result_bind : MBind result := fun A B k r =>
  match r with Ok a => k a | Raise e => Raise e end.

(** ** Cells *)

(** A cell of a dataframe.  [VNull] is the missing value (NaN / None);
    [VFloat] carries the non-NaN floats.  The float type and the three float
    operations the scripts reach (printing, rounding to two decimals,
    conversion to [int]) are an interface: binary floating point is not
    modelled. *)
Inductive value (float : Type) : Type :=
| VNull
| VInt (z : Z)
| VFloat (f : float)
| VStr (s : string).
Arguments VNull {float}.
Arguments VInt {float} z.
Arguments VFloat {float} f.
Arguments VStr {float} s.

Class PyFloat (float : Type) : Type := {
  float_eq_dec :: EqDecision float;
  float_repr : float -> string;        (* repr(x), also str(x) *)
  float_round2 : float -> float;       (* round(x, 2) *)
  float_int : float -> result Z;       (* int(x) *)
  str_int : string -> result Z         (* int(s) on text *)
}.

(** [int(s)] on plain decimal text, for the instance below. *)
Definition digit_of (c : ascii) : option Z :=
  let n := nat_of_ascii c in
  if ((48 <=? n) && (n <=? 57))%nat then Some (Z.of_nat n - 48) else None.

Fixpoint digits_value (acc : Z) (s : string) : option Z :=
  match s with
  | EmptyString => Some acc
  | String c s' =>
      match digit_of c with
      | Some d => digits_value (10 * acc + d) s'
      | None => None
      end
  end.

Definition decimal_int (s : string) : result Z :=
  match s with
  | EmptyString => Raise ValueError
  | _ => match digits_value 0 s with Some z => Ok z | None => Raise ValueError end
  end.

(** Tables without float cells. *)
#[export] Instance no_float : PyFloat Empty_set := {
  float_repr := fun f => match f with end;
  float_round2 := fun f => f;
  float_int := fun f => match f with end;
  str_int := decimal_int
}.

#[export] Instance value_eq_dec {float} `{EqDecision float} : EqDecision (value float).
Proof. solve_decision. Defined.

Definition notna {float} (v : value float) : bool :=
  match v with VNull => false | _ => true end.

(** ** Page elements and the script monad *)

(** What a metric card shows: an [int], a [float] (a cell's float, the float
    of an integer cell, or NaN), or a [str]. *)
Inductive metric_value (float : Type) : Type :=
| MInt (z : Z)
| MFloat (f : float)
| MFloatOfInt (z : Z)
| MNaN
| MStr (s : string).
Arguments MInt {float} z.
Arguments MFloat {float} f.
Arguments MFloatOfInt {float} z.
Arguments MNaN {float}.
Arguments MStr {float} s.

(** The elements a script puts on the page: [Grid] is an [AgGrid] table,
    [Dataframe] an [st.dataframe] table, [Html] a [components.html] frame.
    [Within c e] is element [e] placed in the container (column or tab) that
    the script calls [c].  Calls that only lay the page out (vertical space,
    spinner, help texts, icons of messages) are left out. *)
Inductive element (float : Type) : Type :=
| Button (label : string)
| Checkbox (label : string)
| Selectbox (label : string) (options : list (value float))
| Subheader (body : string)
| Info (body : string)
| Warning (body : string)
| DownloadButton (label : string) (data : string) (file_name : string)
| Html (source : string) (height width : Z) (scrolling : bool)
| Grid (columns : list string) (data : list (list (value float)))
| Dataframe (columns : list string) (data : list (list (value float)))
| Metric (label : string) (v : metric_value float)
| Within (container : string) (e : element float).
Arguments Button {float} label.
Arguments Checkbox {float} label.
Arguments Selectbox {float} label options.
Arguments Subheader {float} body.
Arguments Info {float} body.
Arguments Warning {float} body.
Arguments DownloadButton {float} label data file_name.
Arguments Html {float} source height width scrolling.
Arguments Grid {float} columns data.
Arguments Dataframe {float} columns data.
Arguments Metric {float} label v.
Arguments Within {float} container e.

(** A script run: the elements emitted so far, and how the run ended.  An
    exception keeps the elements emitted before it. *)
Definition ui (float A : Type) : Type := list (element float) * result A.

#[export] Instance ui_ret {float} : MRet (ui float) := fun A a => ([], Ok a).

#[export] Instance ui_bind {float} : MBind (ui float) := fun A B k m =>
  match m with
  | (t, Ok a) => let '(t', r) := k a in (t ++ t', r)
  | (t, Raise e) => (t, Raise e)
  end.

Definition emit {float} (e : element float) : ui float unit := ([e], Ok tt).

Definition lift {float A} (r : result A) : ui float A := ([], r).

(** [with c: body] *)
Definition within {float A} (c : string) (m : ui float A) : ui float A :=
  (Within c <$> m.1, m.2).

(** [try: body  except E: handler], where [catches] recognises [E]. *)
Definition try_except {float A} (body : ui float A) (catches : exn -> bool)
    (handler : ui float A) : ui float A :=
  match body with
  | (t, Raise e) =>
      if catches e then let '(t', r) := handler in (t ++ t', r) else (t, Raise e)
  | done => done
  end.

Definition trace {float A} (m : ui float A) : list (element float) := m.1.
Definition outcome {float A} (m : ui float A) : result A := m.2.

(** ** One rerun's inputs *)

Record session (float : Type) : Type := {
  fs : gmap string string;            (* path -> content of the files on disk *)
  pressed : string -> bool;           (* st.button, by label *)
  checked : string -> bool;           (* st.checkbox, by label *)
  chosen : nat;                       (* index chosen in the st.selectbox *)
  selected_rows : list (list (string * value float))  (* AgGrid selection *)
}.
Arguments fs {float} s.
Arguments pressed {float} s _.
Arguments checked {float} s _.
Arguments chosen {float} s.
Arguments selected_rows {float} s.

(** [open(path, "rb").read()], on a disk given by the regular files the
    process can read: a path the disk lacks does not exist.  The bytes come
    as they are stored. *)
Definition read_file (disk : gmap string string) (path : string) : result string :=
  match disk !! path with
  | Some content => Ok content
  | None => Raise FileNotFoundError
  end.

(** ** Characters *)

Definition LF : ascii := "010"%char.
Definition TAB : ascii := "009"%char.
Definition COMMA : ascii := ","%char.
Definition DQUOTE : ascii := "034"%char.
Definition CR : ascii := "013"%char.

(** ** streamlit_app.py *)

(** [str.lower] on the ASCII letters, which is all the page names hold. *)
Definition ascii_lower (c : ascii) : ascii :=
  let n := nat_of_ascii c in
  if ((65 <=? n) && (n <=? 90))%nat then ascii_of_nat (n + 32) else c.

Fixpoint lower (s : string) : string :=
  match s with
  | EmptyString => EmptyString
  | String c s' => String (ascii_lower c) (lower s')
  end.

(** [name.replace("_", " ")] *)
Fixpoint underscores_to_spaces (s : string) : string :=
  match s with
  | EmptyString => EmptyString
  | String c s' =>
      String (if Ascii.eqb c "_" then " "%char else c) (underscores_to_spaces s')
  end.

(** [standardize_name] of [streamlit_extras.switch_page_button]:
    [name.lower().replace("_", " ")]. *)
Definition standardize_name (name : string) : string :=
  underscores_to_spaces (lower name).

(** The pages registered by [show_pages] (lines 12-19): script path and page
    name, in order. *)
Definition pages : list (string * string) :=
  [ ("streamlit_app.py", "Home");
    ("app_pages/Reference_dataset.py", "Reference dataset");
    ("app_pages/Phylogeny.py", "Phylogeny");
    ("app_pages/Genotype_lineage.py", "Genotype lineage") ].

(** [switch_page(page_name)] of [streamlit_extras]: the first registered page
    whose standardised name is the standardised [page_name] is run next (a
    [RerunException] ends the current script); with no such page the call
    raises [ValueError].  It never returns. *)
Definition switch_page {float} (page_name : string) : ui float unit :=
  match
    List.find (fun p => String.eqb (standardize_name p.2) (standardize_name page_name))
              pages
  with
  | Some p => ([], Raise (RerunException p.1))
  | None => ([], Raise ValueError)
  end.

(** [st.button(label)]: draws the button, returns whether it was pressed. *)
Definition button {float} (s : session float) (label : string) : ui float bool :=
  emit (Button label);; mret (pressed s label).

(** [buttons()] (lines 25-40).  The fourth column [mk] stays empty. *)
Definition buttons {float} (s : session float) : ui float unit :=
  genotype_user_data ← within "bt1" (button s "Genotype VCF");
  phylogeny ← within "bt2" (button s "Explore Phylogeny");
  dataset ← within "bt3" (button s "Reference Dataset");
  (if genotype_user_data : bool then switch_page "genotype lineage" else mret tt);;
  (if phylogeny : bool then switch_page "phylogeny" else mret tt);;
  (if dataset : bool then switch_page "reference dataset" else mret tt).

(** ** app_pages/Phylogeny.py *)

(** What a path of the disk is, for a file opened as text. *)
Inductive entry : Type :=
| RegularFile (content : string)   (* the bytes of a readable file *)
| Directory
| NoPermission.

(** The byte ranges that may follow a lead byte of UTF-8, as Python's strict
    decoder takes them: no overlong form, no surrogate, nothing above
    U+10FFFF.  [None] for a byte that cannot start a character. *)
Definition utf8_lead (b : nat) : option (list (nat * nat)) :=
  if (b <? 128)%nat then Some []
  else if ((194 <=? b) && (b <=? 223))%nat then Some [(128, 191)%nat]
  else if (b =? 224)%nat then Some [(160, 191)%nat; (128, 191)%nat]
  else if (((225 <=? b) && (b <=? 236)) || (b =? 238) || (b =? 239))%nat
  then Some [(128, 191)%nat; (128, 191)%nat]
  else if (b =? 237)%nat then Some [(128, 159)%nat; (128, 191)%nat]
  else if (b =? 240)%nat then Some [(144, 191)%nat; (128, 191)%nat; (128, 191)%nat]
  else if ((241 <=? b) && (b <=? 243))%nat
  then Some [(128, 191)%nat; (128, 191)%nat; (128, 191)%nat]
  else if (b =? 244)%nat then Some [(128, 143)%nat; (128, 191)%nat; (128, 191)%nat]
  else None.

(** [utf8_valid_from pending s]: the bytes [s] are well-formed UTF-8 once
    the bytes [pending] asks for have come. *)
Fixpoint utf8_valid_from (pending : list (nat * nat)) (s : string) : bool :=
  match s with
  | EmptyString => match pending with [] => true | _ => false end
  | String c s' =>
      let b := nat_of_ascii c in
      match pending with
      | [] =>
          match utf8_lead b with
          | Some more => utf8_valid_from more s'
          | None => false
          end
      | (lo, hi) :: more =>
          ((lo <=? b) && (b <=? hi))%nat && utf8_valid_from more s'
      end
  end.

Definition utf8_valid (s : string) : bool := utf8_valid_from [] s.

(** The newline translation of a file read as text (the default
    [newline=None]): a carriage return followed by a line feed, and a
    carriage return alone, are each read as one line feed. *)
Fixpoint universal_newlines (s : string) : string :=
  match s with
  | EmptyString => EmptyString
  | String c s' =>
      if Ascii.eqb c CR
      then String LF
             match s' with
             | String c' s'' =>
                 if Ascii.eqb c' LF then universal_newlines s''
                 else universal_newlines s'
             | EmptyString => EmptyString
             end
      else String c (universal_newlines s')
  end.

(** [open(path, "r", encoding="utf-8").read()]: opening fails on a path that
    does not exist, is a directory or may not be read; reading decodes the
    bytes as UTF-8, which fails on bytes that are not, and translates the line
    endings. *)
Definition open_text (disk : gmap string entry) (path : string) : result string :=
  match disk !! path with
  | None => Raise FileNotFoundError
  | Some Directory => Raise IsADirectoryError
  | Some NoPermission => Raise PermissionError
  | Some (RegularFile content) =>
      if utf8_valid content then Ok (universal_newlines content)
      else Raise UnicodeDecodeError
  end.

(** The body shared by [show_lineage1_tree] .. [show_lineage5_tree]: open the
    file as text, read it whole, hand the text to [components.html]. *)
Definition show_tree {float} (disk : gmap string entry) (path : string)
    (height width : Z) : ui float unit :=
  source_code ← lift (open_text disk path);
  emit (Html source_code height width true).

Definition show_lineage1_tree {float} (disk : gmap string entry) : ui float unit :=
  show_tree disk "./data/trees/lineage.1.tree.html" 1000 1800.
Definition show_lineage2_tree {float} (disk : gmap string entry) : ui float unit :=
  show_tree disk "./data/trees/lineage.2.tree.html" 1000 1800.
Definition show_lineage3_tree {float} (disk : gmap string entry) : ui float unit :=
  show_tree disk "./data/trees/lineage.3.tree.html" 1000 1800.
Definition show_lineage4_tree {float} (disk : gmap string entry) : ui float unit :=
  show_tree disk "./data/trees/lineage.4.tree.html" 1000 1800.
Definition show_lineage5_tree {float} (disk : gmap string entry) : ui float unit :=
  show_tree disk "./data/trees/lineage.5.Animal.tree.html" 1000 1600.

(** [arrange_tabs()] (lines 56-80): five tabs, one tree in each. *)
Definition arrange_tabs {float} (disk : gmap string entry) : ui float unit :=
  within "Lineage 1" (show_lineage1_tree disk);;
  within "Lineage 2" (show_lineage2_tree disk);;
  within "Lineage 3" (show_lineage3_tree disk);;
  within "Lineage 4" (show_lineage4_tree disk);;
  within "Lineage 5-Animal" (show_lineage5_tree disk).

(** ** app_pages/Reference_dataset.py: dataframes and their export *)

(** A dataframe as the scripts use it: the column labels and the rows, each
    row a list of cells in column order.  The row index is not modelled
    (every export passes [index=False]). *)
Record DataFrame (float : Type) : Type := {
  columns : list string;
  data : list (list (value float))
}.
Arguments columns {float} d.
Arguments data {float} d.

#[export] Instance DataFrame_eq_dec {float} `{EqDecision float} :
  EqDecision (DataFrame float).
Proof. solve_decision. Defined.

(** *** The writer behind [DataFrame.to_csv]

    [to_csv] hands each row, cell by cell as text, to Python's [csv.writer]
    with the default dialect options: [QUOTE_MINIMAL], the double quote as
    quote character, [doublequote], line feed as line terminator. *)

(** A character that makes the writer quote the field: the delimiter, the
    quote character, or a character of the line terminator. *)
Definition is_special (sep c : ascii) : bool :=
  Ascii.eqb c sep || Ascii.eqb c DQUOTE || Ascii.eqb c LF.

Fixpoint has_special (sep : ascii) (s : string) : bool :=
  match s with
  | EmptyString => false
  | String c s' => is_special sep c || has_special sep s'
  end.

(** The field's characters with every quote doubled. *)
Fixpoint double_quotes (s : string) : string :=
  match s with
  | EmptyString => EmptyString
  | String c s' =>
      if Ascii.eqb c DQUOTE then String DQUOTE (String DQUOTE (double_quotes s'))
      else String c (double_quotes s')
  end.

Definition write_field (sep : ascii) (f : string) : string :=
  if has_special sep f
  then String DQUOTE (double_quotes f +:+ String DQUOTE EmptyString)
  else f.

Fixpoint join_fields (sep : ascii) (fields : list string) : string :=
  match fields with
  | [] => EmptyString
  | [f] => write_field sep f
  | f :: fs => write_field sep f +:+ String sep (join_fields sep fs)
  end.

(** [writer.writerow(fields)].  A record made of one empty field is written
    as a quoted empty field, so that it is not an empty line. *)
Definition writerow (sep : ascii) (fields : list string) : string :=
  match fields with
  | [EmptyString] => String DQUOTE (String DQUOTE (String LF EmptyString))
  | _ => join_fields sep fields +:+ String LF EmptyString
  end.

Fixpoint writerows (sep : ascii) (rows : list (list string)) : string :=
  match rows with
  | [] => EmptyString
  | r :: rs => writerow sep r +:+ writerows sep rs
  end.

Section ToCsv.
Context {float : Type} `{PyFloat float}.

(** The text [to_csv] writes for a cell: a missing value as the empty
    [na_rep], a number as Python prints it, a string as it is. *)
Definition cell_text (v : value float) : string :=
  match v with
  | VNull => EmptyString
  | VInt z => pretty z
  | VFloat f => float_repr f
  | VStr s => s
  end.

(** The header record followed by one record per row. *)
Definition text_grid (df : DataFrame float) : list (list string) :=
  columns df :: map (map cell_text) (data df).

(** [df.to_csv(sep=sep, index=False)] *)
Definition to_csv (sep : ascii) (df : DataFrame float) : string :=
  writerows sep (text_grid df).

(** [convert_df_to_tsv] (lines 38-40) and [convert_df_to_csv] (43-45);
    [.encode("utf-8")] is the identity on the byte model of text. *)
Definition convert_df_to_tsv (df : DataFrame float) : string := to_csv TAB df.
Definition convert_df_to_csv (df : DataFrame float) : string := to_csv COMMA df.
End ToCsv.

(** *** Reading a written file back

    Two readers.  [csv_read] is the inverse of the writer on what the writer
    writes: fields separated by the delimiter, records ended by a line feed, a
    field that starts with a quote runs to its closing quote, two quotes in
    a row standing for one; an empty line is a record with no field.
    [csv_reader], further down, is Python's [csv.reader] with the writer's
    dialect, which ends a record at a carriage return too. *)
Inductive rstate : Type :=
| StartRecord      (* at the start of a line *)
| StartField       (* just after a delimiter *)
| InField          (* inside an unquoted field *)
| InQuoted         (* inside a quoted field *)
| QuoteInQuoted.   (* just after a quote met inside a quoted field *)

Definition snoc (s : string) (c : ascii) : string := s +:+ String c EmptyString.

(** [read_from sep st field row s]: the records read from [s], starting in
    state [st] with the characters [field] of the current field and the
    fields [row] of the current record (latest first) already read. *)
Fixpoint read_from (sep : ascii) (st : rstate) (field : string)
    (row : list string) (s : string) : list (list string) :=
  match s with
  | EmptyString =>
      match st with
      | StartRecord => []
      | _ => [rev (field :: row)]
      end
  | String c s' =>
      match st with
      | StartRecord =>
          if Ascii.eqb c LF then [] :: read_from sep StartRecord EmptyString [] s'
          else if Ascii.eqb c DQUOTE then read_from sep InQuoted EmptyString [] s'
          else if Ascii.eqb c sep then read_from sep StartField EmptyString [EmptyString] s'
          else read_from sep InField (String c EmptyString) [] s'
      | StartField =>
          if Ascii.eqb c LF
          then rev (EmptyString :: row) :: read_from sep StartRecord EmptyString [] s'
          else if Ascii.eqb c DQUOTE then read_from sep InQuoted EmptyString row s'
          else if Ascii.eqb c sep
          then read_from sep StartField EmptyString (EmptyString :: row) s'
          else read_from sep InField (String c EmptyString) row s'
      | InField =>
          if Ascii.eqb c LF
          then rev (field :: row) :: read_from sep StartRecord EmptyString [] s'
          else if Ascii.eqb c sep
          then read_from sep StartField EmptyString (field :: row) s'
          else read_from sep InField (snoc field c) row s'
      | InQuoted =>
          if Ascii.eqb c DQUOTE then read_from sep QuoteInQuoted field row s'
          else read_from sep InQuoted (snoc field c) row s'
      | QuoteInQuoted =>
          if Ascii.eqb c DQUOTE then read_from sep InQuoted (snoc field DQUOTE) row s'
          else if Ascii.eqb c LF
          then rev (field :: row) :: read_from sep StartRecord EmptyString [] s'
          else if Ascii.eqb c sep
          then read_from sep StartField EmptyString (field :: row) s'
          else read_from sep InField (snoc field c) row s'
      end
  end.

Definition csv_read (sep : ascii) (s : string) : list (list string) :=
  read_from sep StartRecord EmptyString [] s.

(** What the reader does at the delimiter [d] that ends the field [field]:
    a line feed closes the record, the separator opens the next field. *)
Definition close_field (sep d : ascii) (field : string) (row : list string)
    (rest : string) : list (list string) :=
  if Ascii.eqb d LF
  then rev (field :: row) :: read_from sep StartRecord EmptyString [] rest
  else read_from sep StartField EmptyString (field :: row) rest.

Definition is_delim (sep d : ascii) : Prop := d = sep \/ d = LF.

(** [csv.reader] with the writer's dialect, on the text of a file opened
    with [newline=""]: outside quotes a line feed, a carriage return, or a
    carriage return followed by a line feed ends the record; inside quotes
    they are characters of the field.  [AfterCR] is the state just after a
    carriage return that ended a record: a line feed that follows belongs to
    the same line end. *)
Inductive pstate : Type :=
| PStartRecord
| PAfterCR
| PStartField
| PInField
| PInQuoted
| PQuoteInQuoted.

Definition after_eol (c : ascii) : pstate :=
  if Ascii.eqb c CR then PAfterCR else PStartRecord.

Definition is_eol (c : ascii) : bool := Ascii.eqb c LF || Ascii.eqb c CR.

Fixpoint reader_from (sep : ascii) (st : pstate) (field : string)
    (row : list string) (s : string) : list (list string) :=
  match s with
  | EmptyString =>
      match st with
      | PStartRecord | PAfterCR => []
      | _ => [rev (field :: row)]
      end
  | String c s' =>
      match st with
      | PStartRecord =>
          if is_eol c then [] :: reader_from sep (after_eol c) EmptyString [] s'
          else if Ascii.eqb c DQUOTE then reader_from sep PInQuoted EmptyString [] s'
          else if Ascii.eqb c sep
          then reader_from sep PStartField EmptyString [EmptyString] s'
          else reader_from sep PInField (String c EmptyString) [] s'
      | PAfterCR =>
          if Ascii.eqb c LF then reader_from sep PStartRecord EmptyString [] s'
          else if is_eol c then [] :: reader_from sep (after_eol c) EmptyString [] s'
          else if Ascii.eqb c DQUOTE then reader_from sep PInQuoted EmptyString [] s'
          else if Ascii.eqb c sep
          then reader_from sep PStartField EmptyString [EmptyString] s'
          else reader_from sep PInField (String c EmptyString) [] s'
      | PStartField =>
          if is_eol c
          then rev (EmptyString :: row)
               :: reader_from sep (after_eol c) EmptyString [] s'
          else if Ascii.eqb c DQUOTE then reader_from sep PInQuoted EmptyString row s'
          else if Ascii.eqb c sep
          then reader_from sep PStartField EmptyString (EmptyString :: row) s'
          else reader_from sep PInField (String c EmptyString) row s'
      | PInField =>
          if is_eol c
          then rev (field :: row) :: reader_from sep (after_eol c) EmptyString [] s'
          else if Ascii.eqb c sep
          then reader_from sep PStartField EmptyString (field :: row) s'
          else reader_from sep PInField (snoc field c) row s'
      | PInQuoted =>
          if Ascii.eqb c DQUOTE then reader_from sep PQuoteInQuoted field row s'
          else reader_from sep PInQuoted (snoc field c) row s'
      | PQuoteInQuoted =>
          if Ascii.eqb c DQUOTE then reader_from sep PInQuoted (snoc field DQUOTE) row s'
          else if is_eol c
          then rev (field :: row) :: reader_from sep (after_eol c) EmptyString [] s'
          else if Ascii.eqb c sep
          then reader_from sep PStartField EmptyString (field :: row) s'
          else reader_from sep PInField (snoc field c) row s'
      end
  end.

Definition csv_reader (sep : ascii) (s : string) : list (list string) :=
  reader_from sep PStartRecord EmptyString [] s.

(** ** app_pages/Reference_dataset.py: tables *)

(** The values of a list in order of first appearance ([pd.unique], and the
    column labels of a frame built from records). *)
Fixpoint unique {A} `{EqDecision A} (l : list A) : list A :=
  match l with
  | [] => []
  | x :: l' => x :: filter (fun y => y <> x) (unique l')
  end.

(** A left merge ([pd.merge(..., how="left")]): every left row, in order,
    paired with each right row of equal key in order, or kept alone when no
    right row has its key.  A missing key equals a missing key, as in
    pandas.  This is the merge when pandas carries it out: its refusal to
    merge a column of numbers with a column of text ([ValueError]) is not
    modelled. *)
Definition merge_left {L R K O} `{EqDecision K} (key_l : L -> K) (key_r : R -> K)
    (both : L -> R -> O) (left_only : L -> O) (l : list L) (r : list R) : list O :=
  flat_map (fun x =>
    match filter (fun y => key_l x = key_r y) r with
    | [] => [left_only x]
    | ms => map (both x) ms
    end) l.

Section Tables.
Context {float : Type} `{PyFloat float}.

Fixpoint index_of (name : string) (cols : list string) : option nat :=
  match cols with
  | [] => None
  | c :: cols' => if String.eqb c name then Some O else S <$> index_of name cols'
  end.

(** The position of a column label; a label the frame lacks is a
    [KeyError]. *)
Definition loc (df : DataFrame float) (name : string) : result nat :=
  match index_of name (columns df) with
  | Some j => Ok j
  | None => Raise KeyError
  end.

Definition cell (j : nat) (row : list (value float)) : value float :=
  nth j row VNull.

(** [df[name]]: the column as a series. *)
Definition getitem (df : DataFrame float) (name : string)
    : result (list (value float)) :=
  j ← loc df name; mret (map (cell j) (data df)).

(** [df.drop(columns=[name])] *)
Definition drop_column (df : DataFrame float) (name : string)
    : result (DataFrame float) :=
  j ← loc df name;
  mret {| columns := delete j (columns df); data := map (delete j) (data df) |}.

(** [df.empty]: no row or no column. *)
Definition empty_frame (df : DataFrame float) : bool :=
  match columns df, data df with
  | [], _ | _, [] => true
  | _, _ => false
  end.

(** [pd.DataFrame(records)] for a list of dicts: the labels are the keys in
    order of first appearance, a key a record lacks gives a missing cell.
    The cells are the records' values; pandas besides gives each column one
    type, and stores as floats the integers of a column that also holds a
    missing cell or a float.  That conversion is not modelled: the values of
    the frame are those of pandas for the records of [no_upcast] below. *)
Definition dict_get (k : string) (d : list (string * value float)) : value float :=
  match List.find (fun p => String.eqb p.1 k) d with
  | Some p => p.2
  | None => VNull
  end.

Definition DataFrame_of_records (records : list (list (string * value float)))
    : DataFrame float :=
  let keys := unique (flat_map (map fst) records) in
  {| columns := keys; data := map (fun d => map (fun k => dict_get k d) keys) records |}.

(** *** The tables of [get_mapping_data] *)

(** The seven columns [get_mapping_data] selects from the dataset. *)
Record sample_info : Type := {
  Sample : value float;
  Country_of_isolation : value float;
  level_1 : value float;
  level_2 : value float;
  level_3 : value float;
  level_4 : value float;
  level_5 : value float
}.

(** A row of [./data/countries.csv], by the columns the script names. *)
Record country_coords : Type := {
  country : value float;
  latitude : value float;
  longitude : value float;
  name : value float
}.

(** A row of [load_regions()]: columns [name] and [Region]. *)
Record region_row : Type := {
  region_name : value float;
  Region : value float
}.

(** A row of [./data/world_countries.json]. *)
Record shape_row : Type := {
  shape_id : value float;
  shape_name : value float;
  geometry : value float
}.

(** [smp_data] after the first merge and [drop(columns=["country"])]. *)
Record located_row : Type := {
  loc_info : sample_info;
  loc_latitude : value float;
  loc_longitude : value float;
  loc_name : value float
}.

(** A row of the returned [smp_data]. *)
Record smp_row : Type := {
  smp_info : sample_info;
  smp_latitude : value float;
  smp_longitude : value float;
  smp_Region : value float
}.

(** A row of [cnt_samples]. *)
Record cnt_row : Type := {
  cnt_Country_of_isolation : value float;
  Number_of_Samples : nat
}.

(** A row of the returned [cnt_samples_poly]. *)
Record poly_row : Type := {
  poly_Country : value float;
  poly_geometry : value float;
  poly_Number_of_Samples : Z
}.

(** [dataset[["Sample", "Country of isolation", "level 1", ...]]] *)
Definition select_info (dataset : DataFrame float) : result (list sample_info) :=
  jS ← loc dataset "Sample";
  jC ← loc dataset "Country of isolation";
  j1 ← loc dataset "level 1";
  j2 ← loc dataset "level 2";
  j3 ← loc dataset "level 3";
  j4 ← loc dataset "level 4";
  j5 ← loc dataset "level 5";
  mret (map (fun row =>
    {| Sample := cell jS row; Country_of_isolation := cell jC row;
       level_1 := cell j1 row; level_2 := cell j2 row; level_3 := cell j3 row;
       level_4 := cell j4 row; level_5 := cell j5 row |}) (data dataset)).

(** [groupby([key]).count()] on a two-column frame, as (key, counted cell)
    pairs: one group per key that is not missing, counting the cells that
    are not missing.  Groups are listed by first appearance (pandas lists
    them sorted by key; nothing here depends on the order). *)
Fixpoint bump (k : value float) (n : nat) (groups : list cnt_row) : list cnt_row :=
  match groups with
  | [] => [ {| cnt_Country_of_isolation := k; Number_of_Samples := n |} ]
  | g :: groups' =>
      if decide (cnt_Country_of_isolation g = k)
      then {| cnt_Country_of_isolation := k;
              Number_of_Samples := (Number_of_Samples g + n)%nat |} :: groups'
      else g :: bump k n groups'
  end.

Definition groupby_count (pairs : list (value float * value float)) : list cnt_row :=
  fold_left (fun groups p =>
    if notna p.1 then bump p.1 (if notna p.2 then 1%nat else 0%nat) groups
    else groups) pairs [].

(** [cnt_samples] (lines 125-131).  The [rename] leaves the key column as
    it is: no column is called "country of isolation". *)
Definition cnt_samples (dataset : DataFrame float) : result (list cnt_row) :=
  jS ← loc dataset "Sample";
  jC ← loc dataset "Country of isolation";
  mret (groupby_count (map (fun row => (cell jC row, cell jS row)) (data dataset))).

(** The sum of the per-country counts. *)
Definition total_samples (counts : list cnt_row) : nat :=
  sum_list (Number_of_Samples <$> counts).

(** A row that a per-country count counts: its country and its sample name
    are both present. *)
Definition counted (jS jC : nat) (row : list (value float)) : bool :=
  notna (cell jC row) && notna (cell jS row).

(** [get_mapping_data()] (lines 98-148), on the four loaded tables. *)
Definition get_mapping_data (dataset : DataFrame float)
    (country_shapes : list shape_row) (regions : list region_row)
    (countries : list country_coords) : result (list smp_row * list poly_row) :=
  selected ← select_info dataset;
  let merged :=
    merge_left Country_of_isolation name
      (fun s c => {| loc_info := s; loc_latitude := latitude c;
                     loc_longitude := longitude c; loc_name := name c |})
      (fun s => {| loc_info := s; loc_latitude := VNull;
                   loc_longitude := VNull; loc_name := VNull |})
      selected countries in
  let kept := filter (fun r => notna (loc_name r) = true) merged in
  let smp_data :=
    merge_left loc_name region_name
      (fun l r => {| smp_info := loc_info l; smp_latitude := loc_latitude l;
                     smp_longitude := loc_longitude l; smp_Region := Region r |})
      (fun l => {| smp_info := loc_info l; smp_latitude := loc_latitude l;
                   smp_longitude := loc_longitude l; smp_Region := VNull |})
      kept regions in
  counts ← cnt_samples dataset;
  let with_counts :=
    merge_left shape_name cnt_Country_of_isolation
      (fun sh g => (sh, Some g)) (fun sh => (sh, None)) country_shapes counts in
  let complete :=
    filter (fun p => notna (shape_id p.1) && notna (shape_name p.1)
                     && notna (geometry p.1) && bool_decide (is_Some p.2) = true)
           with_counts in
  let cnt_samples_poly :=
    omap (fun p =>
      g ← p.2;
      Some {| poly_Country := shape_name p.1; poly_geometry := geometry p.1;
              poly_Number_of_Samples := Z.of_nat (Number_of_Samples g) |}) complete in
  mret (smp_data, cnt_samples_poly).
End Tables.

(** ** app_pages/Reference_dataset.py: the page sections *)

Section Page.
Context {float : Type} `{PyFloat float}.

(** [st.checkbox(label)] and [st.selectbox(label, options)].  The select
    box returns the option at the chosen index, [None] when there is no
    option. *)
Definition checkbox (s : session float) (label : string) : ui float bool :=
  emit (Checkbox label);; mret (checked s label).

Definition selectbox (s : session float) (label : string)
    (options : list (value float)) : ui float (value float) :=
  emit (Selectbox label options);; mret (default VNull (options !! chosen s)).

Definition download_button (label data file_name : string) : ui float unit :=
  emit (DownloadButton label data file_name).

Definition is_KeyError (e : exn) : bool :=
  match e with KeyError => true | _ => false end.

Definition is_FileNotFoundError (e : exn) : bool :=
  match e with FileNotFoundError => true | _ => false end.

(** Lines 254-277: the export of the selection, or the warning when the
    selection is empty. *)
Definition subset_export (dataset_sel : DataFrame float) : ui float unit :=
  let tsv_sel := convert_df_to_tsv dataset_sel in
  let csv_sel := convert_df_to_csv dataset_sel in
  if empty_frame dataset_sel
  then emit (Warning "Subset dataframe is empty")
  else
    within "dwn_sel1"
      (download_button "💾 Download subset as TSV" tsv_sel "subsetted_dataset.tsv");;
    within "dwn_sel2"
      (download_button "💾 Download subset as CSV" csv_sel "subsetted_dataset.csv").

(** [show_dataset()] (lines 192-279), on the loaded dataset.  Returns the
    grid's selection when the box is ticked, [None] otherwise. *)
Definition show_dataset (s : session float) (dataset : DataFrame float)
    : ui float (option (list (list (string * value float)))) :=
  show ← checkbox s "Show Dataset";
  if show : bool then
    emit (Grid (columns dataset) (data dataset));;
    let tsv := convert_df_to_tsv dataset in
    let csv := convert_df_to_csv dataset in
    within "dwn1" (download_button "💾 Download dataset as TSV" tsv "dataset.tsv");;
    within "dwn2" (download_button "💾 Download dataset as CSV" csv "dataset.csv");;
    let sel_row := selected_rows s in
    let dataset_sel := DataFrame_of_records sel_row in
    emit (Subheader "Selected Samples");;
    emit (Grid (columns dataset_sel) (data dataset_sel));;
    dataset_sel ← try_except
      (lift (drop_column dataset_sel "_selectedRowNodeInfo"))
      is_KeyError
      (emit (Info "Select samples from the main dataframe");; mret dataset_sel);
    subset_export dataset_sel;;
    mret (Some sel_row)
  else mret None.

(** *** [sample_stats] *)

(** [series == x], cell by cell: a missing cell equals nothing. *)
Definition py_eqb (a b : value float) : bool :=
  notna a && bool_decide (a = b).

(** ["./data/VCF/" + sample_filter + ".vcf.gz"]: only text can be added to
    text. *)
Definition vcf_path_of (sample_filter : value float) : result string :=
  match sample_filter with
  | VStr name => Ok ("./data/VCF/" +:+ name +:+ ".vcf.gz")
  | _ => Raise TypeError
  end.

Definition file_name_of (sample_filter : value float) : result string :=
  match sample_filter with
  | VStr name => Ok (name +:+ ".vcf.gz")
  | _ => Raise TypeError
  end.

(** The scalar of a one-element series; [err] is what the conversion
    raises on any other length ([TypeError] for [int(series)] and
    [float(series)], [ValueError] for [series.item()]). *)
Definition the_scalar (err : exn) (series : list (value float))
    : result (value float) :=
  match series with
  | [x] => Ok x
  | _ => Raise err
  end.

(** [int(x)] on a cell. *)
Definition py_int (x : value float) : result Z :=
  match x with
  | VInt z => Ok z
  | VFloat f => float_int f
  | VNull => Raise ValueError
  | VStr t => str_int t
  end.

(** [int(series)] *)
Definition int_of_series (series : list (value float)) : result (metric_value float) :=
  x ← the_scalar TypeError series; z ← py_int x; mret (MInt z).

(** [round(series, 2)] on one cell: text cannot be rounded. *)
Definition round_cell (x : value float) : result (value float) :=
  match x with
  | VStr _ => Raise TypeError
  | VFloat f => Ok (VFloat (float_round2 f))
  | other => Ok other
  end.

(** [float(x)] on a rounded cell. *)
Definition py_float (x : value float) : result (metric_value float) :=
  match x with
  | VInt z => Ok (MFloatOfInt z)
  | VFloat f => Ok (MFloat f)
  | VNull => Ok MNaN
  | VStr _ => Raise TypeError
  end.

(** [float(round(series, 2))] *)
Definition float_of_rounded (series : list (value float))
    : result (metric_value float) :=
  rounded ← mapM round_cell series;
  x ← the_scalar TypeError rounded;
  py_float x.

(** [str(x)] on a cell. *)
Definition py_str (x : value float) : string :=
  match x with
  | VStr t => t
  | VInt z => pretty z
  | VFloat f => float_repr f
  | VNull => "nan"
  end.

(** [str(series.item())] *)
Definition str_of_item (series : list (value float)) : result (metric_value float) :=
  x ← the_scalar ValueError series; mret (MStr (py_str x)).

(** [sdN.metric(label=label, value=conv(dataset[column]))] *)
Definition metric (container label column : string) (dataset : DataFrame float)
    (conv : list (value float) -> result (metric_value float)) : ui float unit :=
  v ← lift (series ← getitem dataset column; conv series);
  within container (emit (Metric label v)).

(** [vcf_to_df(vcf_path)] (lines 74-79): [VcfDataFrame(path=...)] opens the
    file, which raises [FileNotFoundError] when the path does not exist,
    and parses it; [parse_vcf] stands for the parser of the [pdbio]
    library. *)
Definition vcf_to_df (parse_vcf : string -> result (DataFrame float))
    (disk : gmap string string) (vcf_path : string) : result (DataFrame float) :=
  content ← read_file disk vcf_path; parse_vcf content.

(** [pd.unique(dataset["Sample"])]: the options of the select box. *)
Definition sample_options (dataset : DataFrame float) : result (list (value float)) :=
  samples ← getitem dataset "Sample"; mret (unique samples).

(** [dataset[dataset["Sample"] == sample_filter]] (line 287) *)
Definition filter_sample (dataset : DataFrame float) (sample_filter : value float)
    : result (DataFrame float) :=
  jS ← loc dataset "Sample";
  mret {| columns := columns dataset;
          data := List.filter (fun row => py_eqb (cell jS row) sample_filter)
                              (data dataset) |}.

(** The [try] block of lines 292-301. *)
Definition variants_body (parse_vcf : string -> result (DataFrame float))
    (disk : gmap string string) (sample_filter : value float) : ui float unit :=
  vcf_path ← lift (vcf_path_of sample_filter);
  vcf_df ← lift (vcf_to_df parse_vcf disk vcf_path);
  emit (Dataframe (columns vcf_df) (data vcf_df));;
  vcf ← lift (read_file disk vcf_path);
  file_name ← lift (file_name_of sample_filter);
  download_button "Download calls in VCF format" vcf file_name.

(** The body of [if st.checkbox("Show Variants")] (lines 291-303): the
    [try] block with its [except FileNotFoundError]. *)
Definition show_variants (parse_vcf : string -> result (DataFrame float))
    (disk : gmap string string) (sample_filter : value float) : ui float unit :=
  try_except (variants_body parse_vcf disk sample_filter)
    is_FileNotFoundError
    (emit (Warning "VCF file in not available")).

(** The twelve metric cards (lines 308-361), on the filtered dataset. *)
Definition sample_metrics (dataset : DataFrame float) : ui float unit :=
  metric "sd1" "SNPs" "no. of SNPs" dataset int_of_series;;
  metric "sd2" "GC %" "%GC" dataset int_of_series;;
  metric "sd3" "Total Sequences" "Total sequences" dataset int_of_series;;
  metric "sd4" "Average sequence length" "Average sequence length" dataset
    float_of_rounded;;
  metric "sd5" "Mapped Reads %" "%Reads mapped" dataset float_of_rounded;;
  metric "sd6" "Average coverage depth" "Average coverage depth" dataset
    float_of_rounded;;
  metric "sd7" "Country of Isolation" "Country of isolation" dataset str_of_item;;
  metric "sd8" "Level 1" "level 1" dataset str_of_item;;
  metric "sd9" "Level 2" "level 2" dataset str_of_item;;
  metric "sd10" "Level 3" "level 3" dataset str_of_item;;
  metric "sd11" "Level 4" "level 4" dataset str_of_item;;
  metric "sd12" "Level 5" "level 5" dataset str_of_item.

(** [sample_stats()] (lines 282-361), on the loaded dataset. *)
Definition sample_stats (parse_vcf : string -> result (DataFrame float))
    (s : session float) (dataset : DataFrame float) : ui float unit :=
  options ← lift (sample_options dataset);
  sample_filter ← selectbox s "Select Sample" options;
  dataset ← lift (filter_sample dataset sample_filter);
  show ← checkbox s "Show Variants";
  (if show : bool
   then show_variants parse_vcf (fs s) sample_filter
   else mret tt);;
  sample_metrics dataset.
End Page.

(** ** Further page sections and reading aids *)

(** The tab labels of [arrange_tabs] with the file each tab shows. *)
Definition tree_files : list (string * string) :=
  [ ("Lineage 1", "./data/trees/lineage.1.tree.html");
    ("Lineage 2", "./data/trees/lineage.2.tree.html");
    ("Lineage 3", "./data/trees/lineage.3.tree.html");
    ("Lineage 4", "./data/trees/lineage.4.tree.html");
    ("Lineage 5-Animal", "./data/trees/lineage.5.Animal.tree.html") ].

(** The seven columns [get_mapping_data] selects (lines 104-114). *)
Definition mapping_columns : list string :=
  [ "Sample"; "Country of isolation"; "level 1"; "level 2"; "level 3";
    "level 4"; "level 5" ].

(** What [csv.reader] does at the delimiter [d] that ends the field
    [field]. *)
Definition reader_close (sep d : ascii) (field : string) (row : list string)
    (rest : string) : list (list string) :=
  if Ascii.eqb d LF
  then rev (field :: row) :: reader_from sep PStartRecord EmptyString [] rest
  else reader_from sep PStartField EmptyString (field :: row) rest.

Fixpoint has_cr (s : string) : bool :=
  match s with
  | EmptyString => false
  | String c s' => Ascii.eqb c CR || has_cr s'
  end.

(** A field that [csv.reader] reads back whole: it holds no carriage
    return, or the writer quotes it. *)
Definition survives (sep : ascii) (f : string) : bool :=
  has_special sep f || negb (has_cr f).

Definition grid_survives (sep : ascii) (grid : list (list string)) : bool :=
  forallb (forallb (survives sep)) grid.

Section MoreTables.
Context {float : Type} `{PyFloat float}.

(** [series.count()]: the number of cells that are not missing. *)
Definition series_count (series : list (value float)) : nat :=
  length (List.filter notna series).

(** [sample_count()] (lines 82-94), on the loaded dataset: the card sits in
    the first of two columns. *)
Definition sample_count (dataset : DataFrame float) : ui float unit :=
  samples ← lift (getitem dataset "Sample");
  within "sm1"
    (emit (Metric "Total Samples" (MInt (Z.of_nat (series_count samples))))).

Definition is_text (v : value float) : bool :=
  match v with VStr _ => true | _ => false end.

(** A frame all of whose cells are text. *)
Definition all_text (df : DataFrame float) : bool :=
  forallb (forallb is_text) (data df).

(** The records of a read file taken as a frame of text cells: the first
    record gives the labels. *)
Definition text_frame (records : list (list string)) : option (DataFrame float) :=
  match records with
  | [] => None
  | header :: rows => Some {| columns := header; data := map (map VStr) rows |}
  end.

Definition is_int (v : value float) : bool :=
  match v with VInt _ => true | _ => false end.

Definition is_float (v : value float) : bool :=
  match v with VFloat _ => true | _ => false end.

(** A column of a frame built from records that pandas stores as floats
    although the records hold integers: its cells are numbers, some of them
    integers, and one at least is missing or a float. *)
Definition upcast_column (cells : list (value float)) : bool :=
  existsb is_int cells
  && (existsb (fun v => negb (notna v)) cells || existsb is_float cells)
  && negb (existsb is_text cells).

(** The records for which [DataFrame_of_records] is the frame pandas builds:
    no column is stored as floats in place of the records' integers. *)
Definition no_upcast (records : list (list (string * value float))) : bool :=
  forallb (fun k => negb (upcast_column (map (dict_get k) records)))
          (columns (DataFrame_of_records records)).

(** A selected sample that the first merge of [get_mapping_data] keeps: its
    country is present and is a name of the lookup table. *)
Definition located (countries : list (@country_coords float))
    (s : @sample_info float) : bool :=
  notna (Country_of_isolation s)
  && existsb (fun c => bool_decide (Country_of_isolation s = name c)) countries.

(** The rows of the dataset a per-country group counts: the country is the
    group's and the sample name is present. *)
Definition counted_in (jS jC : nat) (k : value float) (row : list (value float))
    : bool :=
  bool_decide (cell jC row = k) && notna (cell jS row).
(** The samples counted under a key in a list of groups. *)
Definition group_total (k : value float) (groups : list (@cnt_row float)) : nat :=
  sum_list (Number_of_Samples <$>
            List.filter (fun g => bool_decide (cnt_Country_of_isolation g = k)) groups).
End MoreTables.

(** ** Example inputs *)

(** The text of a tree file whose lines end in carriage return and line
    feed, and the same text with line feeds alone. *)
Definition crlf_tree : string :=
  "<html>" +:+ String CR (String LF ("one</html>" +:+ String CR (String LF EmptyString))).

Definition lf_tree : string :=
  "<html>" +:+ String LF ("one</html>" +:+ String LF EmptyString).

(** A disk with the five tree files, the first with CRLF line ends. *)
Definition trees_disk : gmap string entry :=
  list_to_map
    [ ("./data/trees/lineage.1.tree.html", RegularFile crlf_tree);
      ("./data/trees/lineage.2.tree.html", RegularFile "<html>two</html>");
      ("./data/trees/lineage.3.tree.html", RegularFile "<html>three</html>");
      ("./data/trees/lineage.4.tree.html", RegularFile "<html>four</html>");
      ("./data/trees/lineage.5.Animal.tree.html", RegularFile "<html>five</html>") ].

(** The columns of the sample table the scripts name. *)
Definition sample_columns : list string :=
  [ "Sample"; "Country of isolation"; "level 1"; "level 2"; "level 3"; "level 4";
    "level 5"; "no. of SNPs"; "%GC"; "Total sequences"; "Average sequence length";
    "%Reads mapped"; "Average coverage depth" ].

Definition sample_line (sample : string) (origin : value Empty_set) (snps : Z)
    : list (value Empty_set) :=
  [ VStr sample; origin; VStr "4"; VStr "4.1"; VStr "4.1.2"; VNull; VNull;
    VInt snps; VInt 65; VInt 1200000; VInt 150; VInt 99; VInt 80 ].

(** Three samples: one from a country of the lookup table, one without a
    country, one from a country the lookup table lacks. *)
Definition three_samples : DataFrame Empty_set :=
  {| columns := sample_columns;
     data := [ sample_line "ERR0001" (VStr "India") 1850;
               sample_line "ERR0002" VNull 1200;
               sample_line "ERR0003" (VStr "Atlantis") 900 ] |}.

(** A table in which one sample name is on two rows. *)
Definition repeated_sample : DataFrame Empty_set :=
  {| columns := sample_columns;
     data := [ sample_line "ERR0001" (VStr "India") 1850;
               sample_line "ERR0001" (VStr "Peru") 1200 ] |}.

(** A selection whose lineage cells are text, and the same with numbers. *)
Definition lineage_as_text : DataFrame Empty_set :=
  {| columns := ["Sample"; "level 1"]; data := [[VStr "ERR0001"; VStr "4"]] |}.

Definition lineage_as_number : DataFrame Empty_set :=
  {| columns := ["Sample"; "level 1"]; data := [[VStr "ERR0001"; VInt 4]] |}.

(** A country lookup table, a region table and a shape table of one country
    each. *)
Definition one_country : list (country_coords (float:=Empty_set)) :=
  [ {| country := VStr "IN"; latitude := VInt 21; longitude := VInt 79;
       name := VStr "India" |} ].

Definition one_region : list (region_row (float:=Empty_set)) :=
  [ {| region_name := VStr "India"; Region := VStr "Asia" |} ].

Definition one_shape : list (shape_row (float:=Empty_set)) :=
  [ {| shape_id := VStr "IND"; shape_name := VStr "India";
       geometry := VStr "POLYGON" |} ].

(** A rerun of the Reference dataset page: both boxes ticked, the first
    sample chosen, nothing selected in the grid, the given files on disk. *)
Definition ticked (disk : gmap string string) : session Empty_set :=
  {| fs := disk; pressed := fun _ => false; checked := fun _ => true;
     chosen := 0; selected_rows := [] |}.

(** A disk holding the VCF file of sample ERR0001. *)
Definition vcf_disk : gmap string string :=
  {[ "./data/VCF/ERR0001.vcf.gz" := "##fileformat=VCFv4.2" ]}.

(** A stand-in for the VCF parser: every file parses to an empty table. *)
Definition parse_nothing (content : string) : result (DataFrame Empty_set) :=
  Ok {| columns := ["CHROM"; "POS"]; data := [] |}.

(** A frame with a carriage return in a cell that needs no quoting, and one
    with a carriage return in a cell that the writer quotes, as CSV and as
    TSV, for its separator and its line feed. *)
Definition cr_unquoted : DataFrame Empty_set :=
  {| columns := ["Sample"; "Note"];
     data := [[VStr "ERR0001"; VStr ("first" +:+ String CR "second")]] |}.

Definition cr_quoted : DataFrame Empty_set :=
  {| columns := ["Sample"; "Note"];
     data := [[VStr "ERR0001";
               VStr ("a,b" +:+ String TAB (String CR (String LF "c")))]] |}.

(** A table whose sample names are numbers: the column is read as integers. *)
Definition numeric_names : DataFrame Empty_set :=
  {| columns := sample_columns;
     data := [ [ VInt 1001; VStr "India"; VStr "4"; VStr "4.1"; VStr "4.1.2"; VNull;
                 VNull; VInt 1850; VInt 65; VInt 1200000; VInt 150; VInt 99;
                 VInt 80 ] ] |}.

(** A table whose first row has no sample name. *)
Definition unnamed_first : DataFrame Empty_set :=
  {| columns := sample_columns;
     data := [ [ VNull; VStr "India"; VStr "4"; VStr "4.1"; VStr "4.1.2"; VNull;
                 VNull; VInt 1850; VInt 65; VInt 1200000; VInt 150; VInt 99;
                 VInt 80 ];
               sample_line "ERR0002" (VStr "Peru") 1200 ] |}.

(** A grid selection of one row, as the grid hands it back. *)
Definition one_selected : list (list (string * value Empty_set)) :=
  [ [ ("_selectedRowNodeInfo", VStr "node"); ("Sample", VStr "ERR0001");
      ("level 1", VStr "4") ] ].

(** A frame of text cells that need quoting. *)
Definition quoted_text : DataFrame Empty_set :=
  {| columns := ["Sample"; "Country, region"];
     data := [ [VStr "ERR0001"; VStr "Congo, Republic"]; [VStr ""; VStr "a	b"] ] |}.

(** A rerun with both boxes ticked and one row selected in the grid. *)
Definition ticked_one_selected : session Empty_set :=
  {| fs := ∅; pressed := fun _ => false; checked := fun _ => true;
     chosen := 0; selected_rows := one_selected |}.

(** A parser that rejects every file. *)
Definition parse_rejects (content : string) : result (DataFrame Empty_set) :=
  Raise ValueError.

(** The one row of [three_samples] for sample ERR0001. *)
Definition first_sample : DataFrame Empty_set :=
  {| columns := sample_columns;
     data := [ sample_line "ERR0001" (VStr "India") 1850 ] |}.

(** A table with the columns of the samples and no row. *)
Definition no_samples : DataFrame Empty_set :=
  {| columns := sample_columns; data := [] |}.

(** A table of variant calls: it has no column of sample names. *)
Definition variant_table : DataFrame Empty_set :=
  {| columns := ["CHROM"; "POS"]; data := [[VStr "NC_000962.3"; VInt 1977]] |}.

(** The located sample of [three_samples], its row of the lookup table and
    its row of the point map. *)
Definition india_sample : sample_info (float:=Empty_set) :=
  {| Sample := VStr "ERR0001"; Country_of_isolation := VStr "India";
     level_1 := VStr "4"; level_2 := VStr "4.1"; level_3 := VStr "4.1.2";
     level_4 := VNull; level_5 := VNull |}.

Definition india_coords : country_coords (float:=Empty_set) :=
  {| country := VStr "IN"; latitude := VInt 21; longitude := VInt 79;
     name := VStr "India" |}.

Definition india_point : smp_row (float:=Empty_set) :=
  {| smp_info := india_sample; smp_latitude := VInt 21; smp_longitude := VInt 79;
     smp_Region := VStr "Asia" |}.

(** The row of the choropleth frame for the one shape. *)
Definition india_polygon : poly_row (float:=Empty_set) :=
  {| poly_Country := VStr "India"; poly_geometry := VStr "POLYGON";
     poly_Number_of_Samples := 1 |}.

(** * Properties *)

(** ** Outcomes *)

Lemma bind_Ok {A B} (r : result A) (k : A -> result B) (b : B) :
  r ≫= k = Ok b -> exists a, r = Ok a /\ k a = Ok b.
Proof. destruct r as [a|e]; simpl; [eauto | discriminate]. Qed.

(** ** Navigation *)

(** C7.  The home page draws exactly three buttons, one in each of the
    first three columns, and a pressed button switches to its page: Genotype
    lineage, Phylogeny, Reference dataset.  With no button pressed the script
    ends normally and the page stays. *)
Theorem buttons_navigation {float} (s : session float) :
  trace (buttons s) =
    [ Within "bt1" (Button "Genotype VCF");
      Within "bt2" (Button "Explore Phylogeny");
      Within "bt3" (Button "Reference Dataset") ]
  /\ outcome (buttons s) =
       if pressed s "Genotype VCF"
       then Raise (RerunException "app_pages/Genotype_lineage.py")
       else if pressed s "Explore Phylogeny"
       then Raise (RerunException "app_pages/Phylogeny.py")
       else if pressed s "Reference Dataset"
       then Raise (RerunException "app_pages/Reference_dataset.py")
       else Ok tt.
Proof.
  unfold buttons, button, trace, outcome.
  destruct (pressed s "Genotype VCF"), (pressed s "Explore Phylogeny"),
    (pressed s "Reference Dataset"); split; reflexivity.
Qed.

(** ** Phylogeny *)

Lemma show_tree_present {float} (disk : gmap string entry) path content h w :
  disk !! path = Some (RegularFile content) ->
  utf8_valid content = true ->
  show_tree (float:=float) disk path h w
    = ([Html (universal_newlines content) h w true], Ok tt).
Proof.
  intros Hp Hv. unfold show_tree, open_text, lift. rewrite Hp, Hv. reflexivity.
Qed.

(** A text without carriage return is read as it is. *)
Lemma universal_newlines_plain (t : string) :
  has_cr t = false -> universal_newlines t = t.
Proof.
  induction t as [|c t IH]; simpl; [reflexivity|].
  intros Hc. apply orb_false_iff in Hc as [Hc Ht]. rewrite Hc. f_equal. now apply IH.
Qed.

(** C5 as stated fails: a tree file saved with CRLF line ends is on disk,
    and the string the first tab passes to the HTML component is not the
    file's content: the text-mode read has turned each CRLF into a line
    feed. *)
Lemma crlf_not_verbatim :
  ~ (forall (disk : gmap string entry) (t1 : string),
       disk !! "./data/trees/lineage.1.tree.html" = Some (RegularFile t1) ->
       utf8_valid t1 = true ->
       In (Within "Lineage 1" (Html t1 1000 1800 true))
          (trace (arrange_tabs (float:=Empty_set) disk))).
Proof.
  intros Hall.
  specialize (Hall trees_disk crlf_tree eq_refl eq_refl).
  vm_compute in Hall.
  repeat (destruct Hall as [Hall|Hall]; [discriminate Hall|]). exact Hall.
Qed.

(** C5, amended.  With the five tree files on disk as UTF-8 text, the
    Phylogeny page puts five HTML components on the page, one per lineage tab
    in order, and the source of each is the text of its file as read in text
    mode: the file's content with every line end made a line feed.  A file
    without carriage return is passed as it is. *)
Theorem arrange_tabs_as_read {float} (disk : gmap string entry)
    (t1 t2 t3 t4 t5 : string) :
  disk !! "./data/trees/lineage.1.tree.html" = Some (RegularFile t1) ->
  disk !! "./data/trees/lineage.2.tree.html" = Some (RegularFile t2) ->
  disk !! "./data/trees/lineage.3.tree.html" = Some (RegularFile t3) ->
  disk !! "./data/trees/lineage.4.tree.html" = Some (RegularFile t4) ->
  disk !! "./data/trees/lineage.5.Animal.tree.html" = Some (RegularFile t5) ->
  utf8_valid t1 = true -> utf8_valid t2 = true -> utf8_valid t3 = true ->
  utf8_valid t4 = true -> utf8_valid t5 = true ->
  arrange_tabs (float:=float) disk =
    ([ Within "Lineage 1" (Html (universal_newlines t1) 1000 1800 true);
       Within "Lineage 2" (Html (universal_newlines t2) 1000 1800 true);
       Within "Lineage 3" (Html (universal_newlines t3) 1000 1800 true);
       Within "Lineage 4" (Html (universal_newlines t4) 1000 1800 true);
       Within "Lineage 5-Animal" (Html (universal_newlines t5) 1000 1600 true) ],
     Ok tt)
  /\ (forall t, In t [t1; t2; t3; t4; t5] -> has_cr t = false ->
        universal_newlines t = t).
Proof.
  intros H1 H2 H3 H4 H5 V1 V2 V3 V4 V5. split.
  - unfold arrange_tabs, show_lineage1_tree, show_lineage2_tree, show_lineage3_tree,
      show_lineage4_tree, show_lineage5_tree.
    rewrite (show_tree_present _ _ _ _ _ H1 V1), (show_tree_present _ _ _ _ _ H2 V2),
      (show_tree_present _ _ _ _ _ H3 V3), (show_tree_present _ _ _ _ _ H4 V4),
      (show_tree_present _ _ _ _ _ H5 V5).
    reflexivity.
  - intros t _. apply universal_newlines_plain.
Qed.

Lemma arrange_tabs_as_read_witness :
  arrange_tabs (float:=Empty_set) trees_disk =
    ([ Within "Lineage 1" (Html lf_tree 1000 1800 true);
       Within "Lineage 2" (Html "<html>two</html>" 1000 1800 true);
       Within "Lineage 3" (Html "<html>three</html>" 1000 1800 true);
       Within "Lineage 4" (Html "<html>four</html>" 1000 1800 true);
       Within "Lineage 5-Animal" (Html "<html>five</html>" 1000 1600 true) ], Ok tt).
Proof.
  exact (proj1 (arrange_tabs_as_read trees_disk crlf_tree "<html>two</html>"
                  "<html>three</html>" "<html>four</html>" "<html>five</html>"
                  eq_refl eq_refl eq_refl eq_refl eq_refl
                  eq_refl eq_refl eq_refl eq_refl eq_refl)).
Defined.

(** ** Export *)

Lemma append_nil_l (b : string) : EmptyString +:+ b = b.
Proof. reflexivity. Qed.

Lemma append_cons (c : ascii) (a b : string) : String c a +:+ b = String c (a +:+ b).
Proof. reflexivity. Qed.

Lemma append_assoc (a b c : string) : (a +:+ b) +:+ c = a +:+ (b +:+ c).
Proof.
  induction a as [|x a IH]; [reflexivity|].
  rewrite !append_cons. f_equal. exact IH.
Qed.

Lemma append_empty_r (a : string) : a +:+ EmptyString = a.
Proof.
  induction a as [|x a IH]; [reflexivity|].
  rewrite append_cons. f_equal. exact IH.
Qed.

(** Appends are brought to the form [c1 :: c2 :: ... (s +:+ rest)]. *)
Ltac app_norm :=
  repeat first [ rewrite append_assoc | rewrite append_cons
               | rewrite append_nil_l | rewrite append_empty_r ].

Lemma snoc_append (a : string) (c : ascii) (b : string) :
  snoc a c +:+ b = a +:+ String c b.
Proof. unfold snoc. now app_norm. Qed.

Section ReadBack.
Variable sep : ascii.
Hypothesis sep_not_quote : sep <> DQUOTE.
Hypothesis sep_not_lf : sep <> LF.

Local Abbreviation close_field := (close_field sep).
Local Abbreviation is_delim := (is_delim sep).

Lemma eqb_sep_lf : Ascii.eqb sep LF = false.
Proof. now apply Ascii.eqb_neq. Qed.

Lemma eqb_sep_quote : Ascii.eqb sep DQUOTE = false.
Proof. now apply Ascii.eqb_neq. Qed.

Lemma delim_not_quote d : is_delim d -> Ascii.eqb d DQUOTE = false.
Proof. intros [->| ->]; [apply eqb_sep_quote | reflexivity]. Qed.

Lemma delim_cases d : is_delim d ->
  (Ascii.eqb d LF = true /\ d = LF) \/
  (Ascii.eqb d LF = false /\ Ascii.eqb d sep = true).
Proof.
  intros [->| ->].
  - right. split; [apply eqb_sep_lf | apply Ascii.eqb_refl].
  - left. now split.
Qed.

Lemma not_special c : is_special sep c = false ->
  Ascii.eqb c sep = false /\ Ascii.eqb c DQUOTE = false /\ Ascii.eqb c LF = false.
Proof.
  unfold is_special. intros Hs.
  apply orb_false_iff in Hs as [Hs Hl]. apply orb_false_iff in Hs as [Hs Hq].
  auto.
Qed.

(** The characters of an unquoted field are taken as they come. *)
Lemma read_unquoted f : forall acc row rest,
  has_special sep f = false ->
  read_from sep InField acc row (f +:+ rest) =
  read_from sep InField (acc +:+ f) row rest.
Proof.
  induction f as [|c f IH]; intros acc row rest Hf; app_norm.
  - reflexivity.
  - simpl in Hf. apply orb_false_iff in Hf as [Hc Hf].
    destruct (not_special _ Hc) as (Hs & _ & Hl).
    simpl. rewrite Hl, Hs, IH by assumption. now rewrite snoc_append.
Qed.

(** A quoted field is read up to its closing quote, doubled quotes giving
    one quote each. *)
Lemma read_quoted f : forall acc row rest,
  read_from sep InQuoted acc row (double_quotes f +:+ String DQUOTE rest) =
  read_from sep QuoteInQuoted (acc +:+ f) row rest.
Proof.
  induction f as [|c f IH]; intros acc row rest; simpl double_quotes; app_norm.
  - reflexivity.
  - destruct (Ascii.eqb c DQUOTE) eqn:Hc; app_norm.
    + apply Ascii.eqb_eq in Hc as ->. simpl.
      rewrite IH. now rewrite snoc_append.
    + simpl. rewrite Hc, IH. now rewrite snoc_append.
Qed.

Lemma read_closing_quote d field row rest : is_delim d ->
  read_from sep QuoteInQuoted field row (String d rest) =
  close_field d field row rest.
Proof.
  intros Hd. unfold close_field. simpl. rewrite (delim_not_quote _ Hd).
  destruct (delim_cases _ Hd) as [[-> _]|[-> ->]]; reflexivity.
Qed.

Lemma read_end_unquoted d field row rest : is_delim d ->
  read_from sep InField field row (String d rest) = close_field d field row rest.
Proof.
  intros Hd. unfold close_field. simpl.
  destruct (delim_cases _ Hd) as [[-> _]|[-> ->]]; reflexivity.
Qed.

(** A written field followed by a delimiter, read after a separator. *)
Lemma read_field d f row rest : is_delim d ->
  read_from sep StartField EmptyString row (write_field sep f +:+ String d rest) =
  close_field d f row rest.
Proof.
  intros Hd. unfold write_field.
  destruct (has_special sep f) eqn:Hf.
  - app_norm. simpl. rewrite read_quoted. app_norm.
    now apply read_closing_quote.
  - destruct f as [|c f].
    + app_norm. simpl. unfold close_field. rewrite (delim_not_quote _ Hd).
      destruct (delim_cases _ Hd) as [[-> _]|[-> ->]]; reflexivity.
    + simpl in Hf. apply orb_false_iff in Hf as [Hc Hf].
      destruct (not_special _ Hc) as (Hs & Hq & Hl).
      app_norm. simpl. rewrite Hl, Hq, Hs.
      rewrite read_unquoted by assumption. app_norm.
      now apply read_end_unquoted.
Qed.

(** The same at the start of a line, for every field except the empty
    field that makes up a record alone. *)
Lemma read_first_field d f rest : is_delim d ->
  f <> EmptyString \/ d = sep ->
  read_from sep StartRecord EmptyString [] (write_field sep f +:+ String d rest) =
  close_field d f [] rest.
Proof.
  intros Hd Hne. unfold write_field.
  destruct (has_special sep f) eqn:Hf.
  - app_norm. simpl. rewrite read_quoted. app_norm.
    now apply read_closing_quote.
  - destruct f as [|c f].
    + destruct Hne as [Hne| ->]; [congruence|].
      app_norm. simpl. unfold close_field.
      rewrite eqb_sep_lf, eqb_sep_quote, Ascii.eqb_refl. reflexivity.
    + simpl in Hf. apply orb_false_iff in Hf as [Hc Hf].
      destruct (not_special _ Hc) as (Hs & Hq & Hl).
      app_norm. simpl. rewrite Hl, Hq, Hs.
      rewrite read_unquoted by assumption. app_norm.
      now apply read_end_unquoted.
Qed.

Lemma close_field_lf field row rest :
  close_field LF field row rest =
  rev (field :: row) :: read_from sep StartRecord EmptyString [] rest.
Proof. reflexivity. Qed.

Lemma close_field_sep field row rest :
  close_field sep field row rest =
  read_from sep StartField EmptyString (field :: row) rest.
Proof. unfold close_field. now rewrite eqb_sep_lf. Qed.

(** The fields of a record after the first. *)
Lemma read_fields fields : forall f row rest,
  read_from sep StartField EmptyString row
    (join_fields sep (f :: fields) +:+ String LF rest) =
  rev (rev (f :: fields) ++ row) :: read_from sep StartRecord EmptyString [] rest.
Proof.
  induction fields as [|g fields IH]; intros f row rest.
  - simpl join_fields. rewrite read_field by (now right).
    now rewrite close_field_lf.
  - change (join_fields sep (f :: g :: fields))
      with (write_field sep f +:+ String sep (join_fields sep (g :: fields))).
    app_norm.
    rewrite read_field by (now left). rewrite close_field_sep, IH.
    do 2 f_equal. simpl. now rewrite <- !app_assoc.
Qed.

(** One written record, read at the start of a line. *)
Lemma read_writerow (fields : list string) (rest : string) :
  read_from sep StartRecord EmptyString [] (writerow sep fields +:+ rest) =
  fields :: read_from sep StartRecord EmptyString [] rest.
Proof.
  destruct fields as [|f fields].
  - reflexivity.
  - destruct fields as [|g fields].
    + destruct f as [|c f].
      * reflexivity.
      * unfold writerow. simpl join_fields. app_norm.
        rewrite read_first_field by ((now right) || (now left)).
        now rewrite close_field_lf.
    + assert (Hw : writerow sep (f :: g :: fields) =
                   join_fields sep (f :: g :: fields) +:+ String LF EmptyString).
      { destruct f; reflexivity. }
      rewrite Hw.
      change (join_fields sep (f :: g :: fields))
        with (write_field sep f +:+ String sep (join_fields sep (g :: fields))).
      app_norm.
      rewrite read_first_field by ((now left) || (now right)).
      rewrite close_field_sep, read_fields.
      f_equal. rewrite rev_app_distr, rev_involutive. reflexivity.
Qed.

(** Reading back what the writer wrote gives the records written. *)
Lemma csv_read_writerows (rows : list (list string)) :
  csv_read sep (writerows sep rows) = rows.
Proof.
  unfold csv_read. induction rows as [|r rows IH]; simpl writerows.
  - reflexivity.
  - now rewrite read_writerow, IH.
Qed.
End ReadBack.

(** ** Export read by [csv.reader] *)

Section ReaderBack.
Variable sep : ascii.
Hypothesis sep_not_quote : sep <> DQUOTE.
Hypothesis sep_not_lf : sep <> LF.
Hypothesis sep_not_cr : sep <> CR.

Local Abbreviation reader_close := (reader_close sep).
Local Abbreviation is_delim := (is_delim sep).

Lemma is_eol_false (c : ascii) :
  Ascii.eqb c LF = false -> Ascii.eqb c CR = false -> is_eol c = false.
Proof. intros Hl Hc. unfold is_eol. now rewrite Hl, Hc. Qed.

Lemma is_eol_sep : is_eol sep = false.
Proof. apply is_eol_false; now apply Ascii.eqb_neq. Qed.

Lemma is_eol_quote : is_eol DQUOTE = false.
Proof. reflexivity. Qed.

Lemma reader_unquoted f : forall acc row rest,
  has_special sep f = false -> has_cr f = false ->
  reader_from sep PInField acc row (f +:+ rest) =
  reader_from sep PInField (acc +:+ f) row rest.
Proof.
  induction f as [|c f IH]; intros acc row rest Hf Hcr; app_norm.
  - reflexivity.
  - simpl in Hf, Hcr. apply orb_false_iff in Hf as [Hc Hf].
    apply orb_false_iff in Hcr as [Hc' Hcr].
    destruct (not_special sep _ Hc) as (Hs & _ & Hl).
    simpl. rewrite (is_eol_false _ Hl Hc'), Hs, IH by assumption.
    now rewrite snoc_append.
Qed.

Lemma reader_quoted f : forall acc row rest,
  reader_from sep PInQuoted acc row (double_quotes f +:+ String DQUOTE rest) =
  reader_from sep PQuoteInQuoted (acc +:+ f) row rest.
Proof.
  induction f as [|c f IH]; intros acc row rest; simpl double_quotes; app_norm.
  - reflexivity.
  - destruct (Ascii.eqb c DQUOTE) eqn:Hc; app_norm.
    + apply Ascii.eqb_eq in Hc as ->. simpl.
      rewrite IH. now rewrite snoc_append.
    + simpl. rewrite Hc, IH. now rewrite snoc_append.
Qed.

Lemma reader_delim d field row rest (st : pstate) : is_delim d ->
  st = PInField \/ st = PQuoteInQuoted ->
  reader_from sep st field row (String d rest) = reader_close d field row rest.
Proof.
  intros [->| ->] [->| ->]; unfold reader_close; simpl;
    rewrite ?is_eol_sep, ?(eqb_sep_lf sep sep_not_lf),
      ?(eqb_sep_quote sep sep_not_quote), ?Ascii.eqb_refl; reflexivity.
Qed.

Lemma reader_field_at (st : pstate) d f row rest : is_delim d ->
  survives sep f = true ->
  (st = PStartField \/ (st = PStartRecord /\ row = [] /\ (f <> EmptyString \/ d = sep))) ->
  reader_from sep st EmptyString row (write_field sep f +:+ String d rest) =
  reader_close d f row rest.
Proof.
  intros Hd Hsv Hst. unfold write_field, survives in *.
  destruct (has_special sep f) eqn:Hf.
  - app_norm.
    assert (Hq : reader_from sep st EmptyString row
                   (String DQUOTE (double_quotes f +:+ String DQUOTE (String d rest)))
                 = reader_from sep PInQuoted EmptyString row
                     (double_quotes f +:+ String DQUOTE (String d rest))).
    { destruct Hst as [->|(-> & -> & _)]; reflexivity. }
    rewrite Hq, reader_quoted. app_norm. apply reader_delim; auto.
  - simpl in Hsv. apply negb_true_iff in Hsv.
    destruct f as [|c f].
    + app_norm. destruct Hst as [->|(-> & -> & [Hne| ->])].
      * destruct Hd as [->| ->]; unfold reader_close; simpl;
          rewrite ?is_eol_sep, ?(eqb_sep_lf sep sep_not_lf),
            ?(eqb_sep_quote sep sep_not_quote), ?Ascii.eqb_refl; reflexivity.
      * congruence.
      * unfold reader_close. simpl.
        rewrite is_eol_sep, (eqb_sep_lf sep sep_not_lf),
          (eqb_sep_quote sep sep_not_quote), Ascii.eqb_refl. reflexivity.
    + simpl in Hf, Hsv. apply orb_false_iff in Hf as [Hc Hf].
      apply orb_false_iff in Hsv as [Hc' Hcr].
      destruct (not_special sep _ Hc) as (Hs & Hq & Hl).
      app_norm.
      assert (Hin : reader_from sep st EmptyString row
                      (String c (f +:+ String d rest))
                    = reader_from sep PInField (String c EmptyString) row
                        (f +:+ String d rest)).
      { destruct Hst as [->|(-> & -> & _)]; simpl;
          now rewrite (is_eol_false _ Hl Hc'), Hq, Hs. }
      rewrite Hin, reader_unquoted by assumption. app_norm.
      apply reader_delim; auto.
Qed.

Lemma reader_close_lf field row rest :
  reader_close LF field row rest =
  rev (field :: row) :: reader_from sep PStartRecord EmptyString [] rest.
Proof. reflexivity. Qed.

Lemma reader_close_sep field row rest :
  reader_close sep field row rest =
  reader_from sep PStartField EmptyString (field :: row) rest.
Proof. unfold reader_close. now rewrite (eqb_sep_lf sep sep_not_lf). Qed.

Lemma reader_fields fields : forall f row rest,
  forallb (survives sep) (f :: fields) = true ->
  reader_from sep PStartField EmptyString row
    (join_fields sep (f :: fields) +:+ String LF rest) =
  rev (rev (f :: fields) ++ row) :: reader_from sep PStartRecord EmptyString [] rest.
Proof.
  induction fields as [|g fields IH]; intros f row rest Hsv;
    simpl in Hsv; apply andb_true_iff in Hsv as [Hf Hsv].
  - simpl join_fields.
    rewrite (reader_field_at PStartField) by (auto; now right).
    now rewrite reader_close_lf.
  - change (join_fields sep (f :: g :: fields))
      with (write_field sep f +:+ String sep (join_fields sep (g :: fields))).
    app_norm.
    rewrite (reader_field_at PStartField) by (auto; now left).
    rewrite reader_close_sep, IH by exact Hsv.
    do 2 f_equal. simpl. now rewrite <- !app_assoc.
Qed.

Lemma reader_writerow (fields : list string) (rest : string) :
  forallb (survives sep) fields = true ->
  reader_from sep PStartRecord EmptyString [] (writerow sep fields +:+ rest) =
  fields :: reader_from sep PStartRecord EmptyString [] rest.
Proof.
  intros Hsv. destruct fields as [|f fields].
  - reflexivity.
  - destruct fields as [|g fields].
    + destruct f as [|c f].
      * reflexivity.
      * unfold writerow. simpl join_fields. app_norm.
        simpl in Hsv. rewrite andb_true_r in Hsv.
        rewrite (reader_field_at PStartRecord);
          [now rewrite reader_close_lf | now right | exact Hsv |].
        right. repeat split. now left.
    + assert (Hw : writerow sep (f :: g :: fields) =
                   join_fields sep (f :: g :: fields) +:+ String LF EmptyString).
      { destruct f; reflexivity. }
      rewrite Hw.
      change (join_fields sep (f :: g :: fields))
        with (write_field sep f +:+ String sep (join_fields sep (g :: fields))).
      app_norm.
      simpl in Hsv. apply andb_true_iff in Hsv as [Hf Hsv].
      rewrite (reader_field_at PStartRecord);
        [| now left | exact Hf | right; repeat split; now right].
      rewrite reader_close_sep, reader_fields by exact Hsv.
      f_equal. rewrite rev_app_distr, rev_involutive. reflexivity.
Qed.

(** [csv.reader] gives back the records written, when every field with a
    carriage return is one the writer quotes. *)
Lemma csv_reader_writerows (rows : list (list string)) :
  grid_survives sep rows = true ->
  csv_reader sep (writerows sep rows) = rows.
Proof.
  unfold csv_reader, grid_survives.
  induction rows as [|r rows IH]; simpl writerows; intros Hsv.
  - reflexivity.
  - simpl in Hsv. apply andb_true_iff in Hsv as [Hr Hsv].
    now rewrite reader_writerow, IH.
Qed.
End ReaderBack.




(** ** Samples per country *)

Section Counts.
Context {float : Type} `{PyFloat float}.

Lemma total_bump (k : value float) (n : nat) (groups : list cnt_row) :
  total_samples (bump k n groups) = (total_samples groups + n)%nat.
Proof.
  unfold total_samples.
  induction groups as [|g groups IH]; csimpl.
  - lia.
  - destruct (decide (cnt_Country_of_isolation g = k)); csimpl; lia.
Qed.

Lemma total_fold (pairs : list (value float * value float)) : forall groups,
  total_samples
    (fold_left (fun groups p =>
       if notna p.1 then bump p.1 (if notna p.2 then 1%nat else 0%nat) groups
       else groups) pairs groups)
  = (total_samples groups
     + length (List.filter (fun p => notna p.1 && notna p.2) pairs))%nat.
Proof.
  induction pairs as [|p pairs IH]; intros groups; simpl.
  - lia.
  - rewrite IH.
    destruct (notna p.1), (notna p.2); simpl; rewrite ?total_bump; lia.
Qed.

Lemma total_groupby_count (pairs : list (value float * value float)) :
  total_samples (groupby_count pairs)
  = length (List.filter (fun p => notna p.1 && notna p.2) pairs).
Proof. unfold groupby_count. now rewrite total_fold. Qed.

Lemma filter_map_length {X Y} (g : X -> Y) (p : Y -> bool) (l : list X) :
  length (List.filter p (map g l)) = length (List.filter (fun x => p (g x)) l).
Proof.
  induction l as [|x l IH]; simpl; [reflexivity|].
  destruct (p (g x)); simpl; now rewrite IH.
Qed.

Lemma filter_all_length {X} (p : X -> bool) (l : list X) :
  (forall x, In x l -> p x = true) -> length (List.filter p l) = length l.
Proof.
  induction l as [|x l IH]; intros Hall; simpl; [reflexivity|].
  rewrite (Hall x) by now left. simpl. f_equal. apply IH.
  intros y Hy. apply Hall. now right.
Qed.

(** C1, amended.  The per-country counts sum to the number of rows whose
    country and sample name are both present; when every row has both, that
    is the row count of the table. *)
Theorem cnt_samples_total (dataset : DataFrame float) (jS jC : nat) :
  loc dataset "Sample" = Ok jS ->
  loc dataset "Country of isolation" = Ok jC ->
  exists counts,
    cnt_samples dataset = Ok counts
    /\ total_samples counts = length (List.filter (counted jS jC) (data dataset))
    /\ ((forall row, In row (data dataset) -> counted jS jC row = true) ->
        total_samples counts = length (data dataset)).
Proof.
  intros HS HC. unfold cnt_samples. rewrite HS, HC. simpl.
  eexists. split; [reflexivity|].
  rewrite total_groupby_count, filter_map_length. simpl.
  split; [reflexivity|].
  intros Hall. now apply filter_all_length.
Qed.
End Counts.

Lemma cnt_samples_total_witness :
  exists counts,
    cnt_samples three_samples = Ok counts
    /\ total_samples counts = length (List.filter (counted 0 1) (data three_samples))
    /\ ((forall row, In row (data three_samples) -> counted 0 1 row = true) ->
        total_samples counts = length (data three_samples)).
Proof. apply (cnt_samples_total three_samples 0 1); reflexivity. Defined.

(** C1 as stated fails: a row without a country is in no group, so the
    counts of a table with such a row sum to less than its row count. *)
Lemma cnt_samples_not_total :
  ~ (forall (dataset : DataFrame Empty_set) counts,
       cnt_samples dataset = Ok counts ->
       total_samples counts = length (data dataset)).
Proof.
  intros Hall.
  specialize (Hall three_samples _ eq_refl).
  vm_compute in Hall. discriminate Hall.
Qed.

(** ** Samples on the map *)

Section Merge.
Context {L R K O : Type} `{EqDecision K}.
Context (key_l : L -> K) (key_r : R -> K) (both : L -> R -> O) (left_only : L -> O).

(** A row of a left merge is a left row paired with a right row of its key,
    or a left row alone whose key no right row has. *)
Lemma in_merge_left (l : list L) (r : list R) (o : O) :
  In o (merge_left key_l key_r both left_only l r) <->
  exists x, In x l /\
    ((exists y, In y r /\ key_l x = key_r y /\ o = both x y)
     \/ ((forall y, In y r -> key_l x <> key_r y) /\ o = left_only x)).
Proof.
  unfold merge_left. rewrite in_flat_map.
  split; intros (x & Hx & Ho); exists x; (split; [exact Hx|]).
  - destruct (filter (fun y => key_l x = key_r y) r) as [|m ms] eqn:Hf.
    + right. destruct Ho as [<-|[]]. split; [|reflexivity].
      intros y Hy Hk. apply list_elem_of_In in Hy.
      exact (filter_nil_not_elem_of _ _ _ Hf Hk Hy).
    + left. apply in_map_iff in Ho as (y & <- & Hy).
      rewrite <- Hf in Hy. apply list_elem_of_In, list_elem_of_filter in Hy as [Hk Hy].
      exists y. apply list_elem_of_In in Hy. auto.
  - destruct Ho as [(y & Hy & Hk & ->)|[Hno ->]].
    + assert (Hin : y ∈ filter (fun y => key_l x = key_r y) r).
      { apply list_elem_of_filter. split; [exact Hk | now apply list_elem_of_In]. }
      destruct (filter (fun y => key_l x = key_r y) r) as [|m ms] eqn:Hf.
      * now apply elem_of_nil in Hin.
      * apply in_map. now apply list_elem_of_In.
    + destruct (filter (fun y => key_l x = key_r y) r) as [|m ms] eqn:Hf.
      * now left.
      * exfalso. assert (Hm : m ∈ filter (fun y => key_l x = key_r y) r)
          by (rewrite Hf; left).
        apply list_elem_of_filter in Hm as [Hk Hm].
        apply list_elem_of_In in Hm. exact (Hno m Hm Hk).
Qed.
End Merge.

Section Mapping.
Context {float : Type} `{PyFloat float}.

(** C10.  Every row of the point-map dataframe is a selected sample
    joined to a row of the country lookup table whose name is present and is
    the sample's country, and carries that row's coordinates; so a sample
    whose country is no name of the lookup table is on no row. *)
Theorem smp_data_located (dataset : DataFrame float)
    (country_shapes : list shape_row) (regions : list region_row)
    (countries : list country_coords)
    (smp_data : list smp_row) (polys : list poly_row) (selected : list sample_info) :
  get_mapping_data dataset country_shapes regions countries = Ok (smp_data, polys) ->
  select_info dataset = Ok selected ->
  (forall r, In r smp_data ->
     In (smp_info r) selected /\
     exists c, In c countries
       /\ notna (name c) = true
       /\ name c = Country_of_isolation (smp_info r)
       /\ smp_latitude r = latitude c
       /\ smp_longitude r = longitude c)
  /\ (forall s, In s selected ->
        (forall c, In c countries -> name c <> Country_of_isolation s) ->
        forall r, In r smp_data -> smp_info r <> s).
Proof.
  intros Hget Hsel.
  assert (Hrows : forall r, In r smp_data ->
     In (smp_info r) selected /\
     exists c, In c countries /\ notna (name c) = true
       /\ name c = Country_of_isolation (smp_info r)
       /\ smp_latitude r = latitude c /\ smp_longitude r = longitude c).
  { unfold get_mapping_data in Hget. rewrite Hsel in Hget. simpl in Hget.
    apply bind_Ok in Hget as (counts & _ & Hget).
    injection Hget as <- _.
    intros r Hr.
    assert (Hl : exists l, smp_info r = loc_info l /\ smp_latitude r = loc_latitude l
                   /\ smp_longitude r = loc_longitude l
                   /\ In l (merge_left Country_of_isolation name
                        (fun s c => {| loc_info := s; loc_latitude := latitude c;
                                       loc_longitude := longitude c; loc_name := name c |})
                        (fun s => {| loc_info := s; loc_latitude := VNull;
                                     loc_longitude := VNull; loc_name := VNull |})
                        selected countries)
                   /\ notna (loc_name l) = true).
    { apply in_merge_left in Hr as (l & Hl & Hcase).
      apply list_elem_of_In, list_elem_of_filter in Hl as [Hn Hl].
      apply list_elem_of_In in Hl.
      exists l. destruct Hcase as [(y & _ & _ & ->)|[_ ->]]; simpl; auto. }
    destruct Hl as (l & -> & -> & -> & Hl & Hn).
    apply in_merge_left in Hl as (s & Hs & [(c & Hc & Hk & ->)|[_ ->]]); simpl in *.
    - split; [exact Hs|]. exists c. auto.
    - discriminate Hn. }
  split; [exact Hrows|].
  intros s Hs Hno r Hr Heq.
  destruct (Hrows r Hr) as (_ & c & Hc & _ & Hk & _).
  rewrite Heq in Hk. exact (Hno c Hc Hk).
Qed.
End Mapping.

Lemma smp_data_located_witness :
  exists smp_data polys selected,
    get_mapping_data three_samples one_shape one_region one_country
      = Ok (smp_data, polys)
    /\ select_info three_samples = Ok selected
    /\ (forall r, In r smp_data ->
         In (smp_info r) selected /\
         exists c, In c one_country
           /\ notna (name c) = true
           /\ name c = Country_of_isolation (smp_info r)
           /\ smp_latitude r = latitude c
           /\ smp_longitude r = longitude c)
    /\ (forall s, In s selected ->
          (forall c, In c one_country -> name c <> Country_of_isolation s) ->
          forall r, In r smp_data -> smp_info r <> s).
Proof.
  eexists _, _, _.
  split; [reflexivity|]. split; [reflexivity|].
  eapply (smp_data_located three_samples one_shape one_region one_country);
    reflexivity.
Defined.

(** ** Sample statistics *)

#[local] Arguments sample_metrics : simpl never.
#[local] Arguments show_variants : simpl never.

Section Stats.
Context {float : Type} `{PyFloat float}.
Variable parse_vcf : string -> result (DataFrame float).

(** The run of [sample_stats] once the sample is chosen and the rows are
    filtered: the variants block when the box is ticked, then the cards. *)
Lemma sample_stats_chosen (s : session float) (dataset filtered : DataFrame float)
    (options : list (value float)) (sample_filter : value float) :
  sample_options dataset = Ok options ->
  default VNull (options !! chosen s) = sample_filter ->
  filter_sample dataset sample_filter = Ok filtered ->
  sample_stats parse_vcf s dataset =
    let block := if checked s "Show Variants"
                 then show_variants parse_vcf (fs s) sample_filter
                 else ([], Ok tt) in
    match outcome block with
    | Ok _ =>
        ([Selectbox "Select Sample" options; Checkbox "Show Variants"]
           ++ trace block ++ trace (sample_metrics filtered),
         outcome (sample_metrics filtered))
    | Raise e =>
        ([Selectbox "Select Sample" options; Checkbox "Show Variants"] ++ trace block,
         Raise e)
    end.
Proof.
  intros Hopt Hsel Hfil. unfold sample_stats, selectbox, checkbox, emit, lift.
  rewrite Hopt. cbn. rewrite Hsel, Hfil. cbn.
  destruct (checked s "Show Variants"); cbn.
  - destruct (show_variants parse_vcf (fs s) sample_filter) as [t [[]|e]]; cbn.
    + destruct (sample_metrics filtered) as [t' r]. reflexivity.
    + now rewrite ?app_nil_r.
  - destruct (sample_metrics filtered) as [t' r]. reflexivity.
Qed.

Lemma variants_missing (disk : gmap string string) (sample : string) :
  disk !! ("./data/VCF/" +:+ sample +:+ ".vcf.gz") = None ->
  show_variants parse_vcf disk (VStr sample)
    = ([Warning "VCF file in not available"], Ok tt).
Proof.
  intros Hno. unfold show_variants, variants_body, vcf_to_df, read_file, lift.
  cbn. rewrite Hno. reflexivity.
Qed.

Lemma variants_present (disk : gmap string string) (sample content : string)
    (vcf_df : DataFrame float) :
  disk !! ("./data/VCF/" +:+ sample +:+ ".vcf.gz") = Some content ->
  parse_vcf content = Ok vcf_df ->
  show_variants parse_vcf disk (VStr sample)
    = ([Dataframe (columns vcf_df) (data vcf_df);
        DownloadButton "Download calls in VCF format" content (sample +:+ ".vcf.gz")],
       Ok tt).
Proof.
  intros Hfile Hparse.
  unfold show_variants, variants_body, vcf_to_df, read_file, lift.
  cbn. rewrite Hfile. cbn. rewrite Hparse. reflexivity.
Qed.


(** C6.  When the chosen sample's VCF file is on disk and parses, the
    download button offers the content of that file as it is, under the
    sample's file name. *)
Theorem vcf_download_passthrough (s : session float)
    (dataset filtered vcf_df : DataFrame float)
    (options : list (value float)) (sample content : string) :
  sample_options dataset = Ok options ->
  options !! chosen s = Some (VStr sample) ->
  filter_sample dataset (VStr sample) = Ok filtered ->
  checked s "Show Variants" = true ->
  fs s !! ("./data/VCF/" +:+ sample +:+ ".vcf.gz") = Some content ->
  parse_vcf content = Ok vcf_df ->
  sample_stats parse_vcf s dataset =
    ([Selectbox "Select Sample" options; Checkbox "Show Variants";
      Dataframe (columns vcf_df) (data vcf_df);
      DownloadButton "Download calls in VCF format" content (sample +:+ ".vcf.gz")]
       ++ trace (sample_metrics filtered),
     outcome (sample_metrics filtered)).
Proof.
  intros Hopt Hsel Hfil Hbox Hfile Hparse.
  rewrite (sample_stats_chosen s dataset filtered options (VStr sample) Hopt)
    by (rewrite ?Hsel; auto).
  rewrite Hbox, (variants_present _ _ _ _ Hfile Hparse). reflexivity.
Qed.

(** The three conversions behind the cards give a value on one-element series
    only. *)
Lemma the_scalar_Ok (err : exn) (series : list (value float)) (x : value float) :
  the_scalar err series = Ok x -> length series = 1%nat.
Proof. destruct series as [|y [|z series]]; simpl; (discriminate || reflexivity). Qed.

Lemma int_of_series_Ok (series : list (value float)) (v : metric_value float) :
  int_of_series series = Ok v -> length series = 1%nat.
Proof.
  unfold int_of_series. intros Hv.
  apply bind_Ok in Hv as (x & Hx & _). exact (the_scalar_Ok _ _ _ Hx).
Qed.

Lemma mapM_round_length (series : list (value float)) : forall rounded,
  mapM round_cell series = Ok rounded -> length rounded = length series.
Proof.
  induction series as [|x series IH]; intros rounded Hm; simpl in Hm.
  - injection Hm as <-. reflexivity.
  - apply bind_Ok in Hm as (y & _ & Hm).
    apply bind_Ok in Hm as (ys & Hys & Hm).
    injection Hm as <-. simpl. f_equal. now apply IH.
Qed.

Lemma float_of_rounded_Ok (series : list (value float)) (v : metric_value float) :
  float_of_rounded series = Ok v -> length series = 1%nat.
Proof.
  unfold float_of_rounded. intros Hv.
  apply bind_Ok in Hv as (rounded & Hr & Hv).
  apply bind_Ok in Hv as (x & Hx & _).
  rewrite <- (mapM_round_length _ _ Hr). exact (the_scalar_Ok _ _ _ Hx).
Qed.

Lemma str_of_item_Ok (series : list (value float)) (v : metric_value float) :
  str_of_item series = Ok v -> length series = 1%nat.
Proof.
  unfold str_of_item. intros Hv.
  apply bind_Ok in Hv as (x & Hx & _). exact (the_scalar_Ok _ _ _ Hx).
Qed.

Lemma getitem_length (df : DataFrame float) (column : string)
    (series : list (value float)) :
  getitem df column = Ok series -> length series = length (data df).
Proof.
  unfold getitem. intros Hg. apply bind_Ok in Hg as (j & _ & Hg).
  injection Hg as <-. apply length_map.
Qed.

Lemma metric_raise (container label column : string) (df : DataFrame float)
    (conv : list (value float) -> result (metric_value float)) (e : exn) :
  getitem df column ≫= conv = Raise e ->
  metric container label column df conv = ([], Raise e).
Proof.
  intros Hr. unfold metric, lift.
  change (getitem df column ≫= (fun series => conv series))
    with (getitem df column ≫= conv).
  rewrite Hr. reflexivity.
Qed.

(** The first card already fails on a frame that is not one row. *)
Lemma sample_metrics_raise (filtered : DataFrame float) :
  length (data filtered) <> 1%nat ->
  exists e, outcome (sample_metrics filtered) = Raise e.
Proof.
  intros Hlen.
  assert (Hfirst : exists e,
            getitem filtered "no. of SNPs" ≫= int_of_series = Raise e).
  { destruct (getitem filtered "no. of SNPs") as [series|e] eqn:Hg.
    - destruct (int_of_series series) as [v|e] eqn:Hv.
      + apply int_of_series_Ok in Hv. apply getitem_length in Hg. congruence.
      + exists e. exact Hv.
    - exists e. reflexivity. }
  destruct Hfirst as [e He]. exists e.
  unfold sample_metrics. rewrite (metric_raise _ _ _ _ _ _ He). reflexivity.
Qed.

Lemma py_eqb_missing (a : value float) : py_eqb a VNull = false.
Proof. unfold py_eqb. destruct a; reflexivity. Qed.

Lemma py_eqb_present (a name : value float) :
  notna name = true -> py_eqb a name = bool_decide (a = name).
Proof.
  intros Hn. unfold py_eqb. destruct (bool_decide_reflect (a = name)) as [->|_].
  - now rewrite Hn.
  - apply andb_false_r.
Qed.

(** The rows the cards read: the rows of the chosen name, none for a missing
    name. *)
Lemma filter_sample_rows (dataset : DataFrame float) (jS : nat) (name : value float) :
  loc dataset "Sample" = Ok jS ->
  exists filtered,
    filter_sample dataset name = Ok filtered
    /\ data filtered
       = if notna name
         then List.filter (fun row => bool_decide (cell jS row = name)) (data dataset)
         else [].
Proof.
  intros HS. unfold filter_sample. rewrite HS. simpl. eexists. split; [reflexivity|].
  simpl. destruct (notna name) eqn:Hn.
  - apply filter_ext. intros row. now apply py_eqb_present.
  - destruct name; try discriminate.
    induction (data dataset) as [|row rows IH]; simpl; [reflexivity|].
    now rewrite py_eqb_missing.
Qed.

(** C9.  The cards need the chosen sample name on exactly one row.  The
    frame the cards read holds the rows whose [Sample] cell is the chosen
    name, and no row for a missing name; each conversion gives a value on a
    one-element series only; so when the chosen name is missing or is the
    [Sample] cell of no row or of several, [sample_stats] ends with an
    exception that nothing catches. *)
Theorem sample_stats_single_row (s : session float) (dataset : DataFrame float)
    (options : list (value float)) (jS : nat) :
  loc dataset "Sample" = Ok jS ->
  sample_options dataset = Ok options ->
  notna (default VNull (options !! chosen s)) = false
  \/ length (List.filter
               (fun row => bool_decide
                             (cell jS row = default VNull (options !! chosen s)))
               (data dataset)) <> 1%nat ->
  (exists filtered,
     filter_sample dataset (default VNull (options !! chosen s)) = Ok filtered
     /\ data filtered
        = if notna (default VNull (options !! chosen s))
          then List.filter
                 (fun row => bool_decide
                               (cell jS row = default VNull (options !! chosen s)))
                 (data dataset)
          else [])
  /\ (forall series v,
        int_of_series series = Ok v \/ float_of_rounded series = Ok v
        \/ str_of_item series = Ok v ->
        length series = 1%nat)
  /\ exists e, outcome (sample_stats parse_vcf s dataset) = Raise e.
Proof.
  intros HS Hopt Hcount.
  destruct (filter_sample_rows dataset jS (default VNull (options !! chosen s)) HS)
    as (filtered & Hfil & Hrows).
  split; [eauto|]. split.
  - intros series v [Hv|[Hv|Hv]];
      [ exact (int_of_series_Ok _ _ Hv) | exact (float_of_rounded_Ok _ _ Hv)
      | exact (str_of_item_Ok _ _ Hv) ].
  - assert (Hlen : length (data filtered) <> 1%nat).
    { rewrite Hrows. destruct Hcount as [Hn|Hn].
      - rewrite Hn. simpl. lia.
      - destruct (notna (default VNull (options !! chosen s))); [exact Hn|simpl; lia]. }
    rewrite (sample_stats_chosen s dataset filtered options _ Hopt eq_refl Hfil).
    cbv zeta.
    destruct (outcome (if checked s "Show Variants"
                       then show_variants parse_vcf (fs s)
                              (default VNull (options !! chosen s))
                       else ([], Ok tt))) as [[]|e].
    + destruct (sample_metrics_raise filtered Hlen) as [e He].
      exists e. exact He.
    + exists e. reflexivity.
Qed.
End Stats.



Lemma vcf_download_passthrough_witness :
  exists filtered,
    filter_sample three_samples (VStr "ERR0001") = Ok filtered
    /\ sample_stats parse_nothing (ticked vcf_disk) three_samples =
         ([Selectbox "Select Sample" [VStr "ERR0001"; VStr "ERR0002"; VStr "ERR0003"];
           Checkbox "Show Variants"; Dataframe ["CHROM"; "POS"] [];
           DownloadButton "Download calls in VCF format" "##fileformat=VCFv4.2"
             "ERR0001.vcf.gz"]
            ++ trace (sample_metrics filtered),
          outcome (sample_metrics filtered)).
Proof.
  eexists. split; [reflexivity|].
  apply (vcf_download_passthrough parse_nothing (ticked vcf_disk) three_samples _
           {| columns := ["CHROM"; "POS"]; data := [] |} _ "ERR0001"
           "##fileformat=VCFv4.2");
    reflexivity.
Defined.

Lemma sample_stats_single_row_witness :
  (length (List.filter (fun row => bool_decide (cell 0 row = VStr "ERR0001"))
                       (data repeated_sample)) = 2%nat
   /\ exists e, outcome (sample_stats parse_nothing (ticked ∅) repeated_sample) = Raise e)
  /\ (notna (default VNull ([VNull; VStr "ERR0002" : value Empty_set] !! 0%nat)) = false
      /\ exists e, outcome (sample_stats parse_nothing (ticked ∅) unnamed_first) = Raise e).
Proof.
  split; (split; [reflexivity|]).
  - apply (sample_stats_single_row parse_nothing (ticked ∅) repeated_sample
             [VStr "ERR0001"] 0); [reflexivity | reflexivity |].
    right. vm_compute. discriminate.
  - apply (sample_stats_single_row parse_nothing (ticked ∅) unnamed_first
             [VNull; VStr "ERR0002"] 0); [reflexivity | reflexivity |].
    left. reflexivity.
Defined.

(** ** Error handling *)

Section Guards.
Context {float : Type} `{PyFloat float}.

Lemma drop_column_raises (df : DataFrame float) (column : string) (e : exn) :
  drop_column df column = Raise e -> e = KeyError.
Proof.
  unfold drop_column, loc.
  destruct (index_of column (columns df)); simpl; intros He;
    [discriminate | now injection He as <-].
Qed.

(** C3, amended.  The page has two [try] blocks.  In [show_dataset] a
    [KeyError] of the column drop is caught: the page shows the notice, keeps
    the selection as it was, and goes on; an empty selection then gives the
    warning in place of the download buttons.  In [sample_stats] a
    [FileNotFoundError] of the variants block is caught and gives the
    warning; every other exception of that block leaves it. *)
Theorem explicit_guards (parse_vcf : string -> result (DataFrame float))
    (s : session float) (dataset : DataFrame float) (sample_filter : value float) :
  checked s "Show Dataset" = true ->
  let dataset_sel := DataFrame_of_records (selected_rows s) in
  let guarded :=
    match drop_column dataset_sel "_selectedRowNodeInfo" with
    | Ok dropped => ([], dropped)
    | Raise _ => ([Info "Select samples from the main dataframe"], dataset_sel)
    end in
  show_dataset s dataset =
    ([ Checkbox "Show Dataset";
       Grid (columns dataset) (data dataset);
       Within "dwn1" (DownloadButton "💾 Download dataset as TSV"
                        (convert_df_to_tsv dataset) "dataset.tsv");
       Within "dwn2" (DownloadButton "💾 Download dataset as CSV"
                        (convert_df_to_csv dataset) "dataset.csv");
       Subheader "Selected Samples";
       Grid (columns dataset_sel) (data dataset_sel) ]
       ++ guarded.1 ++ trace (subset_export guarded.2),
     Ok (Some (selected_rows s)))
  /\ subset_export guarded.2 =
       (if empty_frame guarded.2
        then [Warning "Subset dataframe is empty"]
        else [ Within "dwn_sel1"
                 (DownloadButton "💾 Download subset as TSV"
                    (convert_df_to_tsv guarded.2) "subsetted_dataset.tsv");
               Within "dwn_sel2"
                 (DownloadButton "💾 Download subset as CSV"
                    (convert_df_to_csv guarded.2) "subsetted_dataset.csv") ],
        Ok tt)
  /\ show_variants parse_vcf (fs s) sample_filter =
       match variants_body parse_vcf (fs s) sample_filter with
       | (shown, Raise FileNotFoundError) =>
           (shown ++ [Warning "VCF file in not available"], Ok tt)
       | run => run
       end.
Proof.
  intros Hbox dataset_sel guarded. split; [|split].
  - unfold show_dataset, checkbox, emit. cbn. rewrite Hbox. cbn.
    fold dataset_sel. subst guarded.
    destruct (drop_column dataset_sel "_selectedRowNodeInfo") as [dropped|e] eqn:Hd;
      cbn.
    + destruct (subset_export dropped) as [t [[]|e]] eqn:Hs; cbn.
      * now rewrite app_nil_r.
      * exfalso. revert Hs. unfold subset_export.
        destruct (empty_frame dropped); discriminate.
    + rewrite (drop_column_raises _ _ _ Hd). cbn.
      destruct (subset_export dataset_sel) as [t [[]|e']] eqn:Hs; cbn.
      * now rewrite app_nil_r.
      * exfalso. revert Hs. unfold subset_export.
        destruct (empty_frame dataset_sel); discriminate.
  - unfold subset_export. destruct (empty_frame guarded.2); reflexivity.
  - unfold show_variants, try_except.
    destruct (variants_body parse_vcf (fs s) sample_filter) as [shown [[]|[]]];
      reflexivity.
Qed.
End Guards.

Lemma explicit_guards_witness :
  show_dataset (ticked ∅) lineage_as_text =
    ([ Checkbox "Show Dataset";
       Grid ["Sample"; "level 1"] [[VStr "ERR0001"; VStr "4"]];
       Within "dwn1" (DownloadButton "💾 Download dataset as TSV"
                        (convert_df_to_tsv lineage_as_text) "dataset.tsv");
       Within "dwn2" (DownloadButton "💾 Download dataset as CSV"
                        (convert_df_to_csv lineage_as_text) "dataset.csv");
       Subheader "Selected Samples";
       Grid [] [];
       Info "Select samples from the main dataframe";
       Warning "Subset dataframe is empty" ],
     Ok (Some [])).
Proof.
  exact (proj1 (explicit_guards parse_nothing (ticked ∅) lineage_as_text VNull eq_refl)).
Defined.

(** C3 as stated fails: an exception that is no [FileNotFoundError] is
    caught too.  With nothing selected the column drop raises [KeyError], and
    [show_dataset] ends normally. *)
Lemma key_error_is_caught :
  ~ (forall (s : session Empty_set) (dataset : DataFrame Empty_set) (e : exn),
       checked s "Show Dataset" = true ->
       drop_column (DataFrame_of_records (selected_rows s)) "_selectedRowNodeInfo"
         = Raise e ->
       e <> FileNotFoundError ->
       outcome (show_dataset s dataset) = Raise e).
Proof.
  intros Hall.
  specialize (Hall (ticked ∅) lineage_as_text KeyError eq_refl eq_refl).
  assert (Hne : KeyError <> FileNotFoundError) by discriminate.
  specialize (Hall Hne). vm_compute in Hall. discriminate Hall.
Qed.

(** * Further properties *)

(** ** Export, continued *)

Section ExportMore.
Context {float : Type} `{PyFloat float}.

(** X1.  The export keeps the labels and the text of the cells apart: two
    dataframes with the same CSV export, or the same TSV export, have the
    same labels and the same cell texts. *)
Theorem export_injective (df1 df2 : DataFrame float) :
  convert_df_to_csv df1 = convert_df_to_csv df2
  \/ convert_df_to_tsv df1 = convert_df_to_tsv df2 ->
  text_grid df1 = text_grid df2.
Proof.
  unfold convert_df_to_csv, convert_df_to_tsv, to_csv.
  intros [Heq|Heq].
  - apply (f_equal (csv_read COMMA)) in Heq.
    now rewrite !csv_read_writerows in Heq by discriminate.
  - apply (f_equal (csv_read TAB)) in Heq.
    now rewrite !csv_read_writerows in Heq by discriminate.
Qed.

Lemma text_cells_back (row : list (value float)) :
  forallb is_text row = true -> map VStr (map cell_text row) = row.
Proof.
  induction row as [|v row IH]; simpl; [reflexivity|].
  intros Hr. apply andb_true_iff in Hr as [Hv Hr].
  rewrite IH by assumption. destruct v; try discriminate. reflexivity.
Qed.

End ExportMore.

Lemma export_injective_witness :
  text_grid lineage_as_text = text_grid lineage_as_number.
Proof. apply export_injective. left. reflexivity. Defined.


(** ** Frames *)

Lemma index_of_In (name : string) (cols : list string) :
  In name cols -> exists j, index_of name cols = Some j.
Proof.
  induction cols as [|c cols IH]; simpl; [intros []|].
  intros Hin. destruct (String.eqb_spec c name) as [_|Hne]; [eauto|].
  destruct Hin as [Heq|Hin]; [contradiction|].
  destruct (IH Hin) as [j ->]. eauto.
Qed.

Lemma index_of_nth (name : string) (cols : list string) : forall j,
  index_of name cols = Some j ->
  (j < length cols)%nat /\ nth j cols EmptyString = name.
Proof.
  induction cols as [|c cols IH]; simpl; intros j Hj; [discriminate|].
  destruct (String.eqb_spec c name) as [->|Hne].
  - injection Hj as <-. split; [lia | reflexivity].
  - destruct (index_of name cols) as [k|]; [|discriminate].
    injection Hj as <-. destruct (IH k eq_refl). split; [lia | assumption].
Qed.

Lemma index_of_Some_In (name : string) (cols : list string) (j : nat) :
  index_of name cols = Some j -> In name cols.
Proof.
  intros Hj. destruct (index_of_nth _ _ _ Hj) as [Hlt <-]. now apply nth_In.
Qed.

(** Where a label other than the dropped one stands after the drop. *)
Lemma index_of_delete (c c' : string) (cols : list string) : forall j,
  index_of c cols = Some j -> c' <> c ->
  match index_of c' cols with
  | None => index_of c' (delete j cols) = None
  | Some k =>
      exists k', index_of c' (delete j cols) = Some k'
        /\ ((k < j)%nat /\ k' = k \/ (j < k)%nat /\ S k' = k)
  end.
Proof.
  induction cols as [|x cols IH]; simpl; intros j Hj Hne; [discriminate|].
  destruct (String.eqb_spec x c) as [->|Hxc].
  - injection Hj as <-. simpl.
    destruct (String.eqb_spec c c') as [Heq|_]; [congruence|].
    destruct (index_of c' cols) as [k|]; simpl; [|reflexivity].
    exists k. split; [reflexivity|]. right. split; [lia | reflexivity].
  - destruct (index_of c cols) as [j'|] eqn:Hc; [|discriminate].
    injection Hj as <-. simpl.
    destruct (String.eqb_spec x c') as [_|Hxc'].
    + exists 0%nat. split; [reflexivity|]. left. split; [lia | reflexivity].
    + specialize (IH j' eq_refl Hne).
      destruct (index_of c' cols) as [k|]; simpl.
      * destruct IH as (k' & -> & Hk). simpl. exists (S k').
        split; [reflexivity|]. lia.
      * now rewrite IH.
Qed.

Section Frames.
Context {float : Type} `{PyFloat float}.

Lemma cell_delete_lt (j k : nat) (row : list (value float)) :
  (k < j)%nat -> cell k (delete j row) = cell k row.
Proof.
  intros Hlt. unfold cell. rewrite !nth_lookup. now rewrite list_lookup_delete_lt.
Qed.

Lemma cell_delete_ge (j k : nat) (row : list (value float)) :
  (j <= k)%nat -> cell k (delete j row) = cell (S k) row.
Proof.
  intros Hge. unfold cell. rewrite !nth_lookup. now rewrite list_lookup_delete_ge.
Qed.

Lemma loc_Ok_In (df : DataFrame float) (c : string) :
  (exists j, loc df c = Ok j) <-> In c (columns df).
Proof.
  unfold loc. split.
  - intros [j Hj]. destruct (index_of c (columns df)) as [k|] eqn:Hk; [|discriminate].
    exact (index_of_Some_In _ _ _ Hk).
  - intros Hin. destruct (index_of_In _ _ Hin) as [j ->]. eauto.
Qed.

Lemma loc_Raise (df : DataFrame float) (c : string) (e : exn) :
  loc df c = Raise e -> e = KeyError /\ ~ In c (columns df).
Proof.
  unfold loc. intros Hr. destruct (index_of c (columns df)) as [k|] eqn:Hk;
    [discriminate|]. injection Hr as <-. split; [reflexivity|].
  intros Hin. destruct (index_of_In _ _ Hin) as [j Hj]. congruence.
Qed.

(** A drop of a label the frame has: the other columns stay. *)
Lemma drop_column_keeps_others_aux (df : DataFrame float) (c : string) :
  In c (columns df) ->
  exists dropped, drop_column df c = Ok dropped
    /\ forall c', c' <> c -> getitem dropped c' = getitem df c'.
Proof.
  intros Hin. unfold drop_column, loc.
  destruct (index_of_In _ _ Hin) as [j Hc]. rewrite Hc. simpl.
  eexists. split; [reflexivity|].
  intros c' Hne. unfold getitem, loc. simpl.
  pose proof (index_of_delete c c' (columns df) j Hc Hne) as Hidx.
  destruct (index_of c' (columns df)) as [k|].
  - destruct Hidx as (k' & -> & Hk). simpl. f_equal.
    rewrite map_map. apply map_ext. intros row.
    destruct Hk as [[Hlt ->]|[Hlt <-]].
    + now apply cell_delete_lt.
    + apply cell_delete_ge. lia.
  - now rewrite Hidx.
Qed.

(** X3.  Dropping a column succeeds exactly when the frame has the label,
    and raises [KeyError] otherwise; the frame it gives has the same number
    of rows, and every column under another label is the same series as
    before. *)
Theorem drop_column_keeps_others (df : DataFrame float) (c : string) :
  ((exists dropped, drop_column df c = Ok dropped) <-> In c (columns df))
  /\ (~ In c (columns df) -> drop_column df c = Raise KeyError)
  /\ (forall dropped, drop_column df c = Ok dropped ->
        length (data dropped) = length (data df)
        /\ forall c', c' <> c -> getitem dropped c' = getitem df c').
Proof.
  split; [|split].
  - unfold drop_column. split.
    + intros [d Hd]. apply bind_Ok in Hd as (j & Hj & _).
      apply loc_Ok_In. eauto.
    + intros Hin. apply loc_Ok_In in Hin as [j ->]. simpl. eauto.
  - intros Hno. unfold drop_column.
    destruct (loc df c) as [j|e] eqn:Hj.
    + exfalso. apply Hno, loc_Ok_In. eauto.
    + apply loc_Raise in Hj as [-> _]. reflexivity.
  - intros dropped Hd.
    assert (Hin : In c (columns df)).
    { unfold drop_column in Hd. apply bind_Ok in Hd as (j & Hj & _).
      apply loc_Ok_In. eauto. }
    destruct (drop_column_keeps_others_aux df c Hin) as (d' & Hd' & Hcols).
    rewrite Hd in Hd'. injection Hd' as <-. split; [|exact Hcols].
    unfold drop_column in Hd. apply bind_Ok in Hd as (j & _ & Hd).
    injection Hd as <-. apply length_map.
Qed.
End Frames.

Section Unique.
Context {A : Type} `{EqDecision A}.

Lemma in_unique (l : list A) (x : A) : In x (unique l) <-> In x l.
Proof.
  induction l as [|y l IH]; simpl; [tauto|].
  rewrite <- list_elem_of_In, list_elem_of_filter, list_elem_of_In, IH.
  destruct (decide (x = y)) as [->|Hne]; [tauto|].
  split; [tauto|]. intros [Heq|Hin]; [congruence | auto].
Qed.

Lemma NoDup_unique (l : list A) : NoDup (unique l).
Proof.
  induction l as [|y l IH]; simpl; [constructor|].
  apply NoDup_cons. split.
  - rewrite list_elem_of_filter. tauto.
  - now apply NoDup_filter.
Qed.
End Unique.

Section Records.
Context {float : Type} `{PyFloat float}.

(** X4.  The options of the sample select box are the sample names of the
    table, each once: no option is repeated, and a value is an option
    exactly when it is the [Sample] cell of some row. *)
Theorem sample_options_distinct (dataset : DataFrame float)
    (options : list (value float)) (jS : nat) :
  loc dataset "Sample" = Ok jS ->
  sample_options dataset = Ok options ->
  NoDup options
  /\ forall v, In v options <-> exists row, In row (data dataset) /\ cell jS row = v.
Proof.
  intros HS Hopt. unfold sample_options, getitem in Hopt. rewrite HS in Hopt.
  simpl in Hopt. injection Hopt as <-. split; [apply NoDup_unique|].
  intros v. rewrite in_unique, in_map_iff.
  split; intros (row & ? & ?); exists row; auto.
Qed.

Lemma cell_map_nth {K} (g : K -> value float) (keys : list K) (j : nat) (d : K) :
  (j < length keys)%nat -> cell j (map g keys) = g (nth j keys d).
Proof.
  intros Hlt. unfold cell.
  rewrite (nth_indep _ VNull (g d)) by (now rewrite length_map).
  apply map_nth.
Qed.

Lemma DataFrame_of_records_getitem (records : list (list (string * value float)))
    (k : string) :
  In k (columns (DataFrame_of_records records)) ->
  getitem (DataFrame_of_records records) k = Ok (map (dict_get k) records).
Proof.
  unfold DataFrame_of_records. simpl. intros Hk. unfold getitem, loc. simpl.
  destruct (index_of_In _ _ Hk) as [j Hj]. rewrite Hj. simpl. f_equal.
  rewrite map_map. apply map_ext. intros d.
  destruct (index_of_nth _ _ _ Hj) as [Hlt Hnth].
  rewrite (cell_map_nth _ _ _ EmptyString Hlt). now rewrite Hnth.
Qed.

(** X5.  A frame built from records is rectangular: its labels are the
    keys of the records, each once, and it has one row per record, each as
    long as the labels.  For records in which no column mixes integers with
    a missing cell or a float, the column under a key holds, row by row, the
    record's value for the key, or a missing cell where the record lacks the
    key. *)
Theorem DataFrame_of_records_spec (records : list (list (string * value float))) :
  let df := DataFrame_of_records records in
  NoDup (columns df)
  /\ (forall k, In k (columns df) <-> exists d, In d records /\ In k (map fst d))
  /\ length (data df) = length records
  /\ (forall row, In row (data df) -> length row = length (columns df))
  /\ (no_upcast records = true ->
      forall k, In k (columns df) -> getitem df k = Ok (map (dict_get k) records)).
Proof.
  intros df. subst df. unfold DataFrame_of_records. simpl.
  split; [apply NoDup_unique|]. split; [|split; [|split]].
  - intros k. rewrite in_unique, in_flat_map. reflexivity || tauto.
  - apply length_map.
  - intros row Hrow. apply in_map_iff in Hrow as (d & <- & _). apply length_map.
  - intros _ k Hk. now apply DataFrame_of_records_getitem.
Qed.
End Records.

Lemma sample_options_distinct_witness :
  NoDup [VStr "ERR0001" : value Empty_set]
  /\ forall v, In v [VStr "ERR0001" : value Empty_set] <->
       exists row, In row (data repeated_sample) /\ cell 0 row = v.
Proof. apply (sample_options_distinct repeated_sample); reflexivity. Defined.

Lemma DataFrame_of_records_spec_witness :
  no_upcast one_selected = true
  /\ getitem (DataFrame_of_records one_selected) "Sample" = Ok [VStr "ERR0001"].
Proof.
  split; [reflexivity|].
  apply (proj2 (proj2 (proj2 (proj2 (DataFrame_of_records_spec one_selected)))));
    [reflexivity | vm_compute; tauto].
Defined.

(** ** The dataset section, continued *)

#[local] Arguments convert_df_to_tsv : simpl never.
#[local] Arguments convert_df_to_csv : simpl never.
#[local] Arguments DataFrame_of_records : simpl never.
#[local] Arguments subset_export : simpl never.

Section DatasetMore.
Context {float : Type} `{PyFloat float}.

(** The run of [show_dataset] with the box ticked, by the outcome of the
    column drop. *)
Lemma show_dataset_ticked (s : session float) (dataset : DataFrame float) :
  checked s "Show Dataset" = true ->
  show_dataset s dataset =
    let dataset_sel := DataFrame_of_records (selected_rows s) in
    let shown :=
      [ Checkbox "Show Dataset";
        Grid (columns dataset) (data dataset);
        Within "dwn1" (DownloadButton "💾 Download dataset as TSV"
                         (convert_df_to_tsv dataset) "dataset.tsv");
        Within "dwn2" (DownloadButton "💾 Download dataset as CSV"
                         (convert_df_to_csv dataset) "dataset.csv");
        Subheader "Selected Samples";
        Grid (columns dataset_sel) (data dataset_sel) ] in
    match drop_column dataset_sel "_selectedRowNodeInfo" with
    | Ok dropped => (shown ++ trace (subset_export dropped), Ok (Some (selected_rows s)))
    | Raise _ =>
        (shown ++ Info "Select samples from the main dataframe"
                  :: trace (subset_export dataset_sel),
         Ok (Some (selected_rows s)))
    end.
Proof.
  intros Hbox. unfold show_dataset, checkbox, emit. cbn. rewrite Hbox. cbn.
  assert (Hexp : forall df : DataFrame float, exists t, subset_export df = (t, Ok tt)).
  { intros df. unfold subset_export. destruct (empty_frame df); eexists; reflexivity. }
  destruct (drop_column (DataFrame_of_records (selected_rows s)) "_selectedRowNodeInfo")
    as [dropped|e] eqn:Hd; cbn.
  - destruct (Hexp dropped) as [t ->]. cbn. now rewrite app_nil_r.
  - assert (e = KeyError) as ->.
    { unfold drop_column, loc in Hd.
      destruct (index_of _ _); simpl in Hd; [discriminate | now injection Hd as <-]. }
    cbn. destruct (Hexp (DataFrame_of_records (selected_rows s))) as [t ->]. cbn.
    now rewrite app_nil_r.
Qed.

(** X6.  With the box unticked [show_dataset] draws the box alone and
    returns nothing.  With the box ticked and no row selected it draws the
    dataset grid with its two downloads and an empty selection grid, then the
    notice to select samples and the warning that the subset is empty, and no
    subset download. *)
Theorem show_dataset_nothing_selected (s : session float) (dataset : DataFrame float) :
  (checked s "Show Dataset" = false ->
   show_dataset s dataset = ([Checkbox "Show Dataset"], Ok None))
  /\ (checked s "Show Dataset" = true -> selected_rows s = [] ->
      show_dataset s dataset =
        ([ Checkbox "Show Dataset";
           Grid (columns dataset) (data dataset);
           Within "dwn1" (DownloadButton "💾 Download dataset as TSV"
                            (convert_df_to_tsv dataset) "dataset.tsv");
           Within "dwn2" (DownloadButton "💾 Download dataset as CSV"
                            (convert_df_to_csv dataset) "dataset.csv");
           Subheader "Selected Samples";
           Grid [] [];
           Info "Select samples from the main dataframe";
           Warning "Subset dataframe is empty" ],
         Ok (Some []))).
Proof.
  split.
  - intros Hbox. unfold show_dataset, checkbox, emit. cbn. now rewrite Hbox.
  - intros Hbox Hsel. rewrite (show_dataset_ticked s dataset Hbox), Hsel.
    reflexivity.
Qed.

(** X7.  When the selection carries the grid's [_selectedRowNodeInfo] key
    and no column of it mixes integers with a missing cell or a float, that
    column is dropped without a notice, and the frame offered for download
    holds, under every other key, the selected records' values in order;
    unless it is empty, it is offered as TSV and as CSV. *)
Theorem subset_export_of_selection (s : session float) (dataset : DataFrame float) :
  checked s "Show Dataset" = true ->
  no_upcast (selected_rows s) = true ->
  In "_selectedRowNodeInfo" (columns (DataFrame_of_records (selected_rows s))) ->
  exists dropped,
    drop_column (DataFrame_of_records (selected_rows s)) "_selectedRowNodeInfo"
      = Ok dropped
    /\ (forall k, k <> "_selectedRowNodeInfo" ->
          In k (columns (DataFrame_of_records (selected_rows s))) ->
          getitem dropped k = Ok (map (dict_get k) (selected_rows s)))
    /\ ~ In (Info "Select samples from the main dataframe")
            (trace (show_dataset s dataset))
    /\ (empty_frame dropped = false ->
        In (Within "dwn_sel1"
              (DownloadButton "💾 Download subset as TSV"
                 (convert_df_to_tsv dropped) "subsetted_dataset.tsv"))
           (trace (show_dataset s dataset))
        /\ In (Within "dwn_sel2"
                 (DownloadButton "💾 Download subset as CSV"
                    (convert_df_to_csv dropped) "subsetted_dataset.csv"))
              (trace (show_dataset s dataset))).
Proof.
  intros Hbox _ Hkey.
  destruct (drop_column_keeps_others_aux (DataFrame_of_records (selected_rows s))
              "_selectedRowNodeInfo" Hkey) as (dropped & Hd & Hcols).
  exists dropped. split; [exact Hd|]. split; [|split].
  - intros k Hne Hk. rewrite (Hcols k Hne).
    now apply DataFrame_of_records_getitem.
  - rewrite (show_dataset_ticked s dataset Hbox). cbv zeta. rewrite Hd.
    unfold trace. cbn [fst]. rewrite in_app_iff. intros [Hin|Hin].
    + simpl in Hin. repeat (destruct Hin as [Hin|Hin]; [discriminate|]). exact Hin.
    + unfold subset_export in Hin. destruct (empty_frame dropped); simpl in Hin;
        repeat (destruct Hin as [Hin|Hin]; [discriminate|]); exact Hin.
  - intros Hne. rewrite (show_dataset_ticked s dataset Hbox). cbv zeta. rewrite Hd.
    unfold trace. cbn [fst]. rewrite !in_app_iff.
    unfold subset_export. rewrite Hne. split; right; simpl; auto.
Qed.
End DatasetMore.

Lemma show_dataset_nothing_selected_witness :
  show_dataset (ticked ∅) three_samples =
    ([ Checkbox "Show Dataset";
       Grid (columns three_samples) (data three_samples);
       Within "dwn1" (DownloadButton "💾 Download dataset as TSV"
                        (convert_df_to_tsv three_samples) "dataset.tsv");
       Within "dwn2" (DownloadButton "💾 Download dataset as CSV"
                        (convert_df_to_csv three_samples) "dataset.csv");
       Subheader "Selected Samples";
       Grid [] [];
       Info "Select samples from the main dataframe";
       Warning "Subset dataframe is empty" ],
     Ok (Some [])).
Proof.
  apply (proj2 (show_dataset_nothing_selected (ticked ∅) three_samples));
    reflexivity.
Defined.

Lemma subset_export_of_selection_witness :
  exists dropped,
    drop_column (DataFrame_of_records one_selected) "_selectedRowNodeInfo" = Ok dropped
    /\ (forall k, k <> "_selectedRowNodeInfo" ->
          In k (columns (DataFrame_of_records one_selected)) ->
          getitem dropped k = Ok (map (dict_get k) one_selected))
    /\ ~ In (Info "Select samples from the main dataframe")
            (trace (show_dataset ticked_one_selected three_samples))
    /\ (empty_frame dropped = false ->
        In (Within "dwn_sel1"
              (DownloadButton "💾 Download subset as TSV"
                 (convert_df_to_tsv dropped) "subsetted_dataset.tsv"))
           (trace (show_dataset ticked_one_selected three_samples))
        /\ In (Within "dwn_sel2"
                 (DownloadButton "💾 Download subset as CSV"
                    (convert_df_to_csv dropped) "subsetted_dataset.csv"))
              (trace (show_dataset ticked_one_selected three_samples))).
Proof.
  apply (subset_export_of_selection ticked_one_selected three_samples);
    [reflexivity | reflexivity | vm_compute; auto].
Defined.

(** ** Sample statistics, continued *)

Lemma filter_one {X Y} `{EqDecision Y} (g : X -> Y) (l : list X) (x : X) :
  NoDup (map g l) -> In x l ->
  length (List.filter (fun y => bool_decide (g y = g x)) l) = 1%nat.
Proof.
  induction l as [|y l IH]; simpl; intros Hnd Hin; [destruct Hin|].
  apply NoDup_cons in Hnd as [Hy Hnd].
  assert (Hnone : forall z, ~ In z (map g l) ->
            List.filter (fun y => bool_decide (g y = z)) l = []).
  { clear. intros z. induction l as [|w l IHl]; simpl; intros Hz; [reflexivity|].
    rewrite bool_decide_eq_false_2 by (intros Heq; apply Hz; now left).
    apply IHl. intros Hin. apply Hz. now right. }
  destruct Hin as [->|Hin].
  - rewrite bool_decide_eq_true_2 by reflexivity. simpl.
    rewrite Hnone; [reflexivity|]. now rewrite <- list_elem_of_In.
  - rewrite bool_decide_eq_false_2.
    + now apply IH.
    + intros Heq. apply Hy. rewrite Heq. apply list_elem_of_In. now apply in_map.
Qed.

Section StatsMore.
Context {float : Type} `{PyFloat float}.
Variable parse_vcf : string -> result (DataFrame float).

Lemma py_eqb_eq (a v : value float) : v <> VNull -> py_eqb a v = true <-> a = v.
Proof.
  intros Hv. unfold py_eqb. rewrite andb_true_iff, bool_decide_eq_true.
  split; [tauto|]. intros ->. split; [|reflexivity]. now destruct v.
Qed.

(** X8.  The rows kept for a chosen sample are the rows of the table with
    that sample name, in the table's order.  The name of an option that is
    not missing is on one row at least, and on exactly one when no sample
    name is repeated in the table. *)
Theorem chosen_sample_rows (dataset filtered : DataFrame float)
    (options : list (value float)) (jS : nat) (v : value float) :
  loc dataset "Sample" = Ok jS ->
  sample_options dataset = Ok options ->
  In v options -> v <> VNull ->
  filter_sample dataset v = Ok filtered ->
  columns filtered = columns dataset
  /\ data filtered
       = List.filter (fun row => bool_decide (cell jS row = v)) (data dataset)
  /\ (1 <= length (data filtered))%nat
  /\ (NoDup (map (cell jS) (data dataset)) -> length (data filtered) = 1%nat).
Proof.
  intros HS Hopt Hin Hv Hfil.
  unfold filter_sample in Hfil. rewrite HS in Hfil. simpl in Hfil.
  injection Hfil as <-. simpl.
  unfold sample_options, getitem in Hopt. rewrite HS in Hopt. simpl in Hopt.
  injection Hopt as <-. apply in_unique, in_map_iff in Hin as (row & Hrow & Hin).
  assert (Hsame : List.filter (fun row => py_eqb (cell jS row) v) (data dataset)
                  = List.filter (fun row => bool_decide (cell jS row = v)) (data dataset)).
  { apply filter_ext. intros r. apply eq_true_iff_eq.
    rewrite (py_eqb_eq _ _ Hv), bool_decide_eq_true. reflexivity. }
  rewrite Hsame. split; [reflexivity|]. split; [reflexivity|]. split.
  - assert (Hmem : In row (List.filter (fun row => bool_decide (cell jS row = v))
                             (data dataset))).
    { apply filter_In. split; [exact Hin|]. now apply bool_decide_eq_true. }
    destruct (List.filter (fun row => bool_decide (cell jS row = v)) (data dataset));
      [destruct Hmem | simpl; lia].
  - intros Hnd. rewrite <- Hrow. now apply (filter_one (cell jS)).
Qed.

(** X9.  On a table without a [Sample] column [sample_stats] raises
    [KeyError] before it draws anything. *)
Theorem sample_stats_no_sample_column (s : session float) (dataset : DataFrame float) :
  ~ In "Sample" (columns dataset) ->
  sample_stats parse_vcf s dataset = ([], Raise KeyError).
Proof.
  intros Hno. unfold sample_stats, sample_options, getitem.
  destruct (loc dataset "Sample") as [j|e] eqn:Hj.
  - exfalso. apply Hno, loc_Ok_In. eauto.
  - apply loc_Raise in Hj as [-> _]. reflexivity.
Qed.

(** X10.  A sample filter that is no text (there is none to choose on a
    table without rows) cannot be made into a file path: the variants block
    raises [TypeError], which its handler lets through.  So on a table
    without rows, with the variants box ticked, [sample_stats] draws the two
    widgets and ends with [TypeError]. *)
Theorem sample_stats_empty_table (s : session float) (dataset : DataFrame float)
    (jS : nat) :
  loc dataset "Sample" = Ok jS ->
  data dataset = [] ->
  checked s "Show Variants" = true ->
  sample_stats parse_vcf s dataset =
    ([Selectbox "Select Sample" []; Checkbox "Show Variants"], Raise TypeError).
Proof.
  intros HS Hrows Hbox.
  unfold sample_stats, sample_options, getitem, filter_sample, selectbox, checkbox,
    emit, lift.
  rewrite HS, Hrows. cbn. rewrite Hbox. reflexivity.
Qed.

(** X11.  When the chosen sample's file is on disk and the parser rejects
    it with an exception other than [FileNotFoundError], the exception leaves
    the variants block: no table, no download button, no warning. *)
Theorem vcf_parse_error_propagates (disk : gmap string string)
    (sample content : string) (e : exn) :
  disk !! ("./data/VCF/" +:+ sample +:+ ".vcf.gz") = Some content ->
  parse_vcf content = Raise e ->
  e <> FileNotFoundError ->
  show_variants parse_vcf disk (VStr sample) = ([], Raise e).
Proof.
  intros Hfile Hparse Hne.
  unfold show_variants, variants_body, vcf_to_df, read_file, lift, try_except.
  cbn. rewrite Hfile. cbn. rewrite Hparse. cbn.
  destruct e; try reflexivity. congruence.
Qed.
End StatsMore.

Lemma chosen_sample_rows_witness :
  columns first_sample = columns three_samples
  /\ data first_sample
       = List.filter (fun row => bool_decide (cell 0 row = VStr "ERR0001"))
                     (data three_samples)
  /\ (1 <= length (data first_sample))%nat
  /\ (NoDup (map (cell 0) (data three_samples)) -> length (data first_sample) = 1%nat).
Proof.
  apply (chosen_sample_rows three_samples first_sample
           [VStr "ERR0001"; VStr "ERR0002"; VStr "ERR0003"] 0 (VStr "ERR0001"));
    [reflexivity | reflexivity | now left | discriminate | reflexivity].
Defined.

Lemma sample_stats_no_sample_column_witness :
  sample_stats parse_nothing (ticked ∅) variant_table = ([], Raise KeyError).
Proof.
  apply sample_stats_no_sample_column. vm_compute. intuition discriminate.
Defined.

Lemma sample_stats_empty_table_witness :
  sample_stats parse_nothing (ticked ∅) no_samples =
    ([Selectbox "Select Sample" []; Checkbox "Show Variants"], Raise TypeError).
Proof. apply (sample_stats_empty_table parse_nothing _ _ 0); reflexivity. Defined.

Lemma vcf_parse_error_propagates_witness :
  show_variants parse_rejects vcf_disk (VStr "ERR0001") = ([], Raise ValueError).
Proof.
  apply (vcf_parse_error_propagates parse_rejects vcf_disk "ERR0001"
           "##fileformat=VCFv4.2"); [reflexivity | reflexivity | discriminate].
Defined.

Section Cards.
Context {float : Type} `{PyFloat float}.

Lemma float_of_rounded_one (x : value float) :
  float_of_rounded [x] = round_cell x ≫= py_float.
Proof. unfold float_of_rounded. simpl. destruct (round_cell x); reflexivity. Qed.

Lemma metric_Ok (container label column : string) (df : DataFrame float)
    (conv : list (value float) -> result (metric_value float))
    (series : list (value float)) (v : metric_value float) :
  getitem df column = Ok series -> conv series = Ok v ->
  metric container label column df conv = ([Within container (Metric label v)], Ok tt).
Proof.
  intros Hg Hv. unfold metric, lift. rewrite Hg. simpl. rewrite Hv. reflexivity.
Qed.


Lemma filter_split_length {X} (p q : X -> bool) (l : list X) :
  length (List.filter p l)
  = (length (List.filter (fun x => q x && p x) l)
     + length (List.filter (fun x => p x && negb (q x)) l))%nat.
Proof.
  induction l as [|x l IH]; simpl; [reflexivity|].
  destruct (p x), (q x); simpl; lia.
Qed.

(** X13.  The Total Samples card shows the number of rows that have a
    sample name.  That number is the sum of the per-country counts plus the
    number of named samples without a country: the card and the map agree
    exactly when every named sample has a country. *)
Theorem sample_count_total (dataset : DataFrame float) (jS jC : nat) :
  loc dataset "Sample" = Ok jS ->
  loc dataset "Country of isolation" = Ok jC ->
  exists counts (n : nat),
    cnt_samples dataset = Ok counts
    /\ sample_count dataset
         = ([Within "sm1" (Metric "Total Samples" (MInt (Z.of_nat n)))], Ok tt)
    /\ n = length (List.filter (fun row => notna (cell jS row)) (data dataset))
    /\ n = (total_samples counts
            + length (List.filter
                        (fun row => notna (cell jS row) && negb (notna (cell jC row)))
                        (data dataset)))%nat.
Proof.
  intros HS HC. unfold cnt_samples, sample_count, getitem, lift. rewrite HS, HC.
  simpl. eexists _, _. split; [reflexivity|]. split; [reflexivity|].
  unfold series_count. rewrite filter_map_length. split; [reflexivity|].
  rewrite total_groupby_count, filter_map_length. simpl.
  apply (filter_split_length (fun row => notna (cell jS row))
           (fun row => notna (cell jC row))).
Qed.
End Cards.


Lemma sample_count_total_witness :
  exists counts (n : nat),
    cnt_samples three_samples = Ok counts
    /\ sample_count three_samples
         = ([Within "sm1" (Metric "Total Samples" (MInt (Z.of_nat n)))], Ok tt)
    /\ n = length (List.filter (fun row => notna (cell 0 row)) (data three_samples))
    /\ n = (total_samples counts
            + length (List.filter
                        (fun row => notna (cell 0 row) && negb (notna (cell 1 row)))
                        (data three_samples)))%nat.
Proof. apply (sample_count_total three_samples 0 1); reflexivity. Defined.

(** ** Samples on the map, continued *)

Section MergeMore.
Context {L R K O : Type} `{EqDecision K}.
Context (key_l : L -> K) (key_r : R -> K) (both : L -> R -> O) (left_only : L -> O).

Lemma filter_key_none (k : K) (r : list R) :
  ~ In k (map key_r r) -> filter (fun y => k = key_r y) r = [].
Proof.
  induction r as [|y r IH]; simpl; intros Hno; [reflexivity|].
  rewrite filter_cons. destruct (decide (k = key_r y)) as [Heq|_].
  - exfalso. apply Hno. now left.
  - apply IH. intros Hin. apply Hno. now right.
Qed.

Lemma filter_key_unique (k : K) (r : list R) :
  NoDup (map key_r r) -> (length (filter (fun y => k = key_r y) r) <= 1)%nat.
Proof.
  induction r as [|y r IH]; simpl; intros Hnd; [cbn; lia|].
  apply NoDup_cons in Hnd as [Hy Hnd]. rewrite filter_cons.
  destruct (decide (k = key_r y)) as [->|_]; [|now apply IH].
  rewrite filter_key_none; [simpl; lia|]. now rewrite <- list_elem_of_In.
Qed.

(** A left row has a right row of its key, or none has it. *)
Lemma match_or_none (x : L) (r : list R) :
  (exists y, In y r /\ key_l x = key_r y)
  \/ (forall y, In y r -> key_l x <> key_r y).
Proof.
  destruct (filter (fun y => key_l x = key_r y) r) as [|y ys] eqn:Hf.
  - right. intros y Hy Hk. apply list_elem_of_In in Hy.
    exact (filter_nil_not_elem_of _ _ _ Hf Hk Hy).
  - left. exists y.
    assert (Hy : y ∈ filter (fun y => key_l x = key_r y) r) by (rewrite Hf; left).
    apply list_elem_of_filter in Hy as [Hk Hy]. apply list_elem_of_In in Hy. auto.
Qed.

(** With no key twice on the right, a left merge gives one row per left
    row. *)
Lemma merge_left_unique_keys (l : list L) (r : list R) :
  NoDup (map key_r r) ->
  merge_left key_l key_r both left_only l r =
  map (fun x => match filter (fun y => key_l x = key_r y) r with
                | [] => left_only x
                | y :: _ => both x y
                end) l.
Proof.
  intros Hnd. unfold merge_left. induction l as [|x l IH]; [reflexivity|].
  cbn [flat_map]. rewrite IH. cbn [map].
  pose proof (filter_key_unique (key_l x) r Hnd) as Hle.
  destruct (filter (fun y => key_l x = key_r y) r) as [|y [|z ms]];
    simpl in *; [reflexivity | reflexivity | lia].
Qed.
End MergeMore.

Section MappingMore.
Context {float : Type} `{PyFloat float}.

Lemma loc_Ok_of_In (df : DataFrame float) (c : string) :
  In c (columns df) -> exists j, loc df c = Ok j.
Proof. apply loc_Ok_In. Qed.

(** X14.  [get_mapping_data] needs the seven columns it selects: when one
    of them is not in the dataset it raises [KeyError], whatever the lookup
    tables hold. *)
Theorem get_mapping_data_columns (dataset : DataFrame float)
    (country_shapes : list shape_row) (regions : list region_row)
    (countries : list country_coords) (c : string) :
  In c mapping_columns -> ~ In c (columns dataset) ->
  get_mapping_data dataset country_shapes regions countries = Raise KeyError.
Proof.
  intros Hc Hno.
  assert (Hloc : forall j, loc dataset c <> Ok j).
  { intros j Hj. apply Hno, loc_Ok_In. eauto. }
  unfold get_mapping_data, select_info, mapping_columns in *.
  destruct (loc dataset "Sample") as [jS|e] eqn:HS; simpl;
    [|apply loc_Raise in HS as [-> _]; reflexivity].
  destruct (loc dataset "Country of isolation") as [jC|e] eqn:HC; simpl;
    [|apply loc_Raise in HC as [-> _]; reflexivity].
  destruct (loc dataset "level 1") as [j1|e] eqn:H1; simpl;
    [|apply loc_Raise in H1 as [-> _]; reflexivity].
  destruct (loc dataset "level 2") as [j2|e] eqn:H2; simpl;
    [|apply loc_Raise in H2 as [-> _]; reflexivity].
  destruct (loc dataset "level 3") as [j3|e] eqn:H3; simpl;
    [|apply loc_Raise in H3 as [-> _]; reflexivity].
  destruct (loc dataset "level 4") as [j4|e] eqn:H4; simpl;
    [|apply loc_Raise in H4 as [-> _]; reflexivity].
  destruct (loc dataset "level 5") as [j5|e] eqn:H5; simpl;
    [|apply loc_Raise in H5 as [-> _]; reflexivity].
  exfalso. simpl in Hc.
  repeat (destruct Hc as [<-|Hc]; [eapply Hloc; eassumption|]). exact Hc.
Qed.
End MappingMore.

Section PointMap.
Context {float : Type} `{PyFloat float}.

(** The two merges of [get_mapping_data], as the function writes them. *)
Local Abbreviation first_merge selected countries :=
  (merge_left Country_of_isolation name
     (fun s c => {| loc_info := s; loc_latitude := latitude c;
                    loc_longitude := longitude c; loc_name := name c |})
     (fun s => {| loc_info := s; loc_latitude := VNull;
                  loc_longitude := VNull; loc_name := VNull |})
     selected countries).

Local Abbreviation second_merge kept regions :=
  (merge_left loc_name region_name
     (fun l r => {| smp_info := loc_info l; smp_latitude := loc_latitude l;
                    smp_longitude := loc_longitude l; smp_Region := Region r |})
     (fun l => {| smp_info := loc_info l; smp_latitude := loc_latitude l;
                  smp_longitude := loc_longitude l; smp_Region := VNull |})
     kept regions).

Lemma get_mapping_data_points (dataset : DataFrame float)
    (country_shapes : list shape_row) (regions : list region_row)
    (countries : list country_coords)
    (smp_data : list smp_row) (polys : list poly_row) (selected : list sample_info) :
  get_mapping_data dataset country_shapes regions countries = Ok (smp_data, polys) ->
  select_info dataset = Ok selected ->
  smp_data =
    second_merge
      (filter (fun r => notna (loc_name r) = true) (first_merge selected countries))
      regions.
Proof.
  intros Hget Hsel. unfold get_mapping_data in Hget. rewrite Hsel in Hget.
  simpl in Hget. apply bind_Ok in Hget as (counts & _ & Hget).
  now injection Hget as <- _.
Qed.

(** X15.  No located sample is lost: a selected sample whose country is
    present and is the name of a row of the lookup table is on a row of the
    point-map dataframe with that row's coordinates. *)
Theorem smp_data_covers (dataset : DataFrame float)
    (country_shapes : list shape_row) (regions : list region_row)
    (countries : list country_coords)
    (smp_data : list smp_row) (polys : list poly_row) (selected : list sample_info)
    (s : sample_info) (c : country_coords) :
  get_mapping_data dataset country_shapes regions countries = Ok (smp_data, polys) ->
  select_info dataset = Ok selected ->
  In s selected -> In c countries ->
  name c = Country_of_isolation s -> notna (name c) = true ->
  exists r, In r smp_data /\ smp_info r = s
            /\ smp_latitude r = latitude c /\ smp_longitude r = longitude c.
Proof.
  intros Hget Hsel Hs Hc Hk Hn.
  rewrite (get_mapping_data_points _ _ _ _ _ _ _ Hget Hsel).
  set (l := {| loc_info := s; loc_latitude := latitude c;
               loc_longitude := longitude c; loc_name := name c |}).
  assert (Hl : In l (filter (fun r => notna (loc_name r) = true)
                       (first_merge selected countries))).
  { apply list_elem_of_In, list_elem_of_filter. split; [exact Hn|].
    apply list_elem_of_In, in_merge_left. exists s. split; [exact Hs|].
    left. exists c. auto. }
  destruct (match_or_none loc_name region_name l regions) as [(g & Hg & Hkg)|Hnone].
  - exists {| smp_info := loc_info l; smp_latitude := loc_latitude l;
              smp_longitude := loc_longitude l; smp_Region := Region g |}.
    split; [|simpl; auto].
    apply in_merge_left. exists l. split; [exact Hl|]. left. exists g. auto.
  - exists {| smp_info := loc_info l; smp_latitude := loc_latitude l;
              smp_longitude := loc_longitude l; smp_Region := VNull |}.
    split; [|simpl; auto].
    apply in_merge_left. exists l. split; [exact Hl|]. right. auto.
Qed.

(** X16.  Every row of the point-map dataframe has the region the region
    table gives for its country, or a missing region when the region table
    has no row of that name. *)
Theorem smp_data_regions (dataset : DataFrame float)
    (country_shapes : list shape_row) (regions : list region_row)
    (countries : list country_coords)
    (smp_data : list smp_row) (polys : list poly_row) (selected : list sample_info)
    (r : smp_row) :
  get_mapping_data dataset country_shapes regions countries = Ok (smp_data, polys) ->
  select_info dataset = Ok selected ->
  In r smp_data ->
  (exists g, In g regions
     /\ region_name g = Country_of_isolation (smp_info r)
     /\ smp_Region r = Region g)
  \/ ((forall g, In g regions -> region_name g <> Country_of_isolation (smp_info r))
      /\ smp_Region r = VNull).
Proof.
  intros Hget Hsel Hr.
  rewrite (get_mapping_data_points _ _ _ _ _ _ _ Hget Hsel) in Hr.
  apply in_merge_left in Hr as (l & Hl & Hcase).
  apply list_elem_of_In, list_elem_of_filter in Hl as [Hn Hl].
  apply list_elem_of_In, in_merge_left in Hl as (s & _ & Hs).
  assert (Hname : loc_name l = Country_of_isolation (loc_info l)).
  { destruct Hs as [(c & _ & Hk & ->)|[_ ->]]; simpl in *; [now symmetry|].
    discriminate Hn. }
  destruct Hcase as [(g & Hg & Hk & ->)|[Hnone ->]]; simpl.
  - left. exists g. rewrite <- Hname. auto.
  - right. split; [|reflexivity]. intros g Hg Heq. apply (Hnone g Hg).
    now rewrite Hname.
Qed.

(** X17.  When no name is twice in the lookup table and none twice in the
    region table, the point-map dataframe has one row per located sample:
    as many rows as there are selected samples whose country is present and
    is a name of the lookup table. *)
Theorem smp_data_one_row_each (dataset : DataFrame float)
    (country_shapes : list shape_row) (regions : list region_row)
    (countries : list country_coords)
    (smp_data : list smp_row) (polys : list poly_row) (selected : list sample_info) :
  get_mapping_data dataset country_shapes regions countries = Ok (smp_data, polys) ->
  select_info dataset = Ok selected ->
  NoDup (map name countries) ->
  NoDup (map region_name regions) ->
  length smp_data = length (List.filter (located countries) selected).
Proof.
  intros Hget Hsel Hnames Hregions.
  rewrite (get_mapping_data_points _ _ _ _ _ _ _ Hget Hsel).
  rewrite (merge_left_unique_keys _ _ _ _ _ _ Hregions), length_map.
  rewrite (merge_left_unique_keys _ _ _ _ _ _ Hnames).
  clear Hget Hsel. induction selected as [|s selected IH]; [reflexivity|].
  cbn [map List.filter]. rewrite filter_cons.
  assert (Hloc : notna (loc_name
             match filter (fun y => Country_of_isolation s = name y) countries with
             | [] => {| loc_info := s; loc_latitude := VNull;
                        loc_longitude := VNull; loc_name := VNull |}
             | c :: _ => {| loc_info := s; loc_latitude := latitude c;
                            loc_longitude := longitude c; loc_name := name c |}
             end) = located countries s).
  { unfold located.
    destruct (filter (fun y => Country_of_isolation s = name y) countries)
      as [|c cs] eqn:Hf; simpl.
    - symmetry. apply andb_false_iff. right. apply not_true_iff_false.
      intros Hex. apply existsb_exists in Hex as (c & Hc & Hk).
      apply bool_decide_eq_true in Hk. apply list_elem_of_In in Hc.
      exact (filter_nil_not_elem_of _ _ _ Hf Hk Hc).
    - assert (Hc : c ∈ filter (fun y => Country_of_isolation s = name y) countries)
        by (rewrite Hf; left).
      apply list_elem_of_filter in Hc as [Hk Hc]. rewrite <- Hk.
      symmetry. destruct (notna (Country_of_isolation s)); [|reflexivity].
      simpl. apply existsb_exists. exists c.
      split; [now apply list_elem_of_In | now apply bool_decide_eq_true]. }
  rewrite <- Hloc.
  destruct (decide (notna (loc_name _) = true)) as [Ht|Hf].
  - rewrite Ht. simpl. now rewrite IH.
  - apply not_true_is_false in Hf. rewrite Hf. exact IH.
Qed.
End PointMap.

Lemma get_mapping_data_columns_witness :
  get_mapping_data variant_table one_shape one_region one_country = Raise KeyError.
Proof.
  apply (get_mapping_data_columns variant_table one_shape one_region one_country
           "Sample"); vm_compute; intuition discriminate.
Defined.

Lemma smp_data_covers_witness :
  exists r, In r [india_point] /\ smp_info r = india_sample
            /\ smp_latitude r = VInt 21 /\ smp_longitude r = VInt 79.
Proof.
  eapply (smp_data_covers three_samples one_shape one_region one_country
            [india_point] _ _ india_sample india_coords);
    [reflexivity | reflexivity | now left | now left | reflexivity | reflexivity].
Defined.

Lemma smp_data_regions_witness :
  (exists g, In g one_region
     /\ region_name g = Country_of_isolation (smp_info india_point)
     /\ smp_Region india_point = Region g)
  \/ ((forall g, In g one_region ->
         region_name g <> Country_of_isolation (smp_info india_point))
      /\ smp_Region india_point = VNull).
Proof.
  eapply (smp_data_regions three_samples one_shape one_region one_country
            [india_point]); [reflexivity | reflexivity | now left].
Defined.

Lemma smp_data_one_row_each_witness :
  length [india_point] = length (List.filter (located one_country) (
    [ india_sample;
      {| Sample := VStr "ERR0002"; Country_of_isolation := VNull;
         level_1 := VStr "4"; level_2 := VStr "4.1"; level_3 := VStr "4.1.2";
         level_4 := VNull; level_5 := VNull |};
      {| Sample := VStr "ERR0003"; Country_of_isolation := VStr "Atlantis";
         level_1 := VStr "4"; level_2 := VStr "4.1"; level_3 := VStr "4.1.2";
         level_4 := VNull; level_5 := VNull |} ])).
Proof.
  eapply (smp_data_one_row_each three_samples one_shape one_region one_country);
    [reflexivity | reflexivity | |];
    (apply NoDup_cons; split; [apply not_elem_of_nil | apply NoDup_nil_2]).
Defined.

(** ** Samples per country, continued *)

Section Groups.
Context {float : Type} `{PyFloat float}.

Local Abbreviation keys groups := (map cnt_Country_of_isolation groups).

Local Abbreviation count_step :=
  (fun (groups : list cnt_row) (p : value float * value float) =>
     if notna p.1 then bump p.1 (if notna p.2 then 1%nat else 0%nat) groups
     else groups).

Lemma group_total_bump (k k' : value float) (n : nat) (groups : list cnt_row) :
  group_total k' (bump k n groups)
  = (group_total k' groups + if bool_decide (k = k') then n else 0)%nat.
Proof.
  unfold group_total. induction groups as [|g groups IH]; simpl.
  - destruct (bool_decide (k = k')); csimpl; lia.
  - destruct (decide (cnt_Country_of_isolation g = k)) as [Heq|Hne]; simpl.
    + rewrite Heq. destruct (bool_decide (k = k')); csimpl; lia.
    + destruct (bool_decide (cnt_Country_of_isolation g = k')); csimpl;
        rewrite IH; lia.
Qed.

Lemma in_keys_bump (k k' : value float) (n : nat) (groups : list cnt_row) :
  In k' (keys (bump k n groups)) <-> k' = k \/ In k' (keys groups).
Proof.
  induction groups as [|g groups IH]; simpl.
  - intuition congruence.
  - destruct (decide (cnt_Country_of_isolation g = k)) as [Heq|Hne]; simpl.
    + rewrite Heq. intuition congruence.
    + rewrite IH. intuition congruence.
Qed.

Lemma NoDup_keys_bump (k : value float) (n : nat) (groups : list cnt_row) :
  NoDup (keys groups) -> NoDup (keys (bump k n groups)).
Proof.
  induction groups as [|g groups IH]; simpl; intros Hnd.
  - apply NoDup_cons. split; [apply not_elem_of_nil | constructor].
  - apply NoDup_cons in Hnd as [Hg Hnd].
    destruct (decide (cnt_Country_of_isolation g = k)) as [Heq|Hne]; simpl.
    + apply NoDup_cons. rewrite <- Heq. now split.
    + apply NoDup_cons. split; [|now apply IH].
      rewrite list_elem_of_In, in_keys_bump, <- list_elem_of_In. intuition.
Qed.

Lemma group_total_absent (k : value float) (groups : list cnt_row) :
  ~ In k (keys groups) -> group_total k groups = 0%nat.
Proof.
  unfold group_total. induction groups as [|g groups IH]; simpl; intros Hno;
    [reflexivity|].
  rewrite bool_decide_eq_false_2 by (intros Heq; apply Hno; now left).
  apply IH. intros Hin. apply Hno. now right.
Qed.

Lemma group_total_member (g : cnt_row) (groups : list cnt_row) :
  NoDup (keys groups) -> In g groups ->
  group_total (cnt_Country_of_isolation g) groups = Number_of_Samples g.
Proof.
  induction groups as [|g0 groups IH]; simpl; intros Hnd Hin; [destruct Hin|].
  apply NoDup_cons in Hnd as [Hg0 Hnd]. rewrite list_elem_of_In in Hg0.
  destruct Hin as [->|Hin].
  - unfold group_total. simpl. rewrite bool_decide_eq_true_2 by reflexivity.
    csimpl. fold (group_total (cnt_Country_of_isolation g) groups).
    rewrite group_total_absent by assumption. lia.
  - unfold group_total. simpl. rewrite bool_decide_eq_false_2.
    + now apply IH.
    + intros Heq. apply Hg0. rewrite Heq. now apply in_map.
Qed.

(** What the fold of [groupby_count] keeps true. *)
Lemma count_fold (pairs : list (value float * value float)) :
  forall groups : list cnt_row,
  (NoDup (keys groups) -> NoDup (keys (fold_left count_step pairs groups)))
  /\ (forall k, group_total k (fold_left count_step pairs groups)
        = (group_total k groups
           + length (List.filter
               (fun p => bool_decide (p.1 = k) && notna p.1 && notna p.2) pairs))%nat)
  /\ (forall k, In k (keys (fold_left count_step pairs groups)) <->
        In k (keys groups) \/ (notna k = true /\ exists p, In p pairs /\ p.1 = k)).
Proof.
  induction pairs as [|p pairs IH]; intros groups; simpl.
  - split; [auto|]. split; [intros k; lia|].
    intros k. split; [auto|]. intros [Hk|(_ & p & [] & _)]. exact Hk.
  - destruct (IH (count_step groups p)) as (Hnd & Htot & Hkeys).
    split; [|split].
    + intros Hg. apply Hnd. destruct (notna p.1); [now apply NoDup_keys_bump | exact Hg].
    + intros k. rewrite Htot.
      destruct (notna p.1) eqn:Hp1.
      * rewrite group_total_bump.
        destruct (bool_decide (p.1 = k)), (notna p.2); simpl; lia.
      * rewrite andb_false_r. simpl. lia.
    + intros k. rewrite Hkeys.
      destruct (notna p.1) eqn:Hp1.
      * rewrite in_keys_bump. split.
        -- intros [[->|Hk]|(Hn & q & Hq & Hqk)].
           ++ right. split; [exact Hp1|]. exists p. auto.
           ++ now left.
           ++ right. split; [exact Hn|]. exists q. auto.
        -- intros [Hk|(Hn & q & [->|Hq] & Hqk)].
           ++ left. now right.
           ++ left. left. now symmetry.
           ++ right. split; [exact Hn|]. exists q. auto.
      * split.
        -- intros [Hk|(Hn & q & Hq & Hqk)]; [now left|].
           right. split; [exact Hn|]. exists q. auto.
        -- intros [Hk|(Hn & q & [->|Hq] & Hqk)]; [now left | congruence |].
           right. split; [exact Hn|]. exists q. auto.
Qed.

(** The groups of the per-country count: one per country, counting the
    named samples of the country. *)
Lemma cnt_samples_groups (dataset : DataFrame float) (jS jC : nat)
    (counts : list cnt_row) :
  loc dataset "Sample" = Ok jS ->
  loc dataset "Country of isolation" = Ok jC ->
  cnt_samples dataset = Ok counts ->
  NoDup (keys counts)
  /\ (forall g, In g counts ->
        notna (cnt_Country_of_isolation g) = true
        /\ (exists row, In row (data dataset)
                        /\ cell jC row = cnt_Country_of_isolation g)
        /\ Number_of_Samples g
           = length (List.filter (counted_in jS jC (cnt_Country_of_isolation g))
                                 (data dataset)))
  /\ (forall row, In row (data dataset) -> notna (cell jC row) = true ->
        exists g, In g counts /\ cnt_Country_of_isolation g = cell jC row).
Proof.
  intros HS HC Hcnt. unfold cnt_samples in Hcnt. rewrite HS, HC in Hcnt.
  simpl in Hcnt. injection Hcnt as <-. unfold groupby_count.
  destruct (count_fold (map (fun row => (cell jC row, cell jS row)) (data dataset)) [])
    as (Hnd & Htot & Hkeys).
  specialize (Hnd (NoDup_nil_2)).
  split; [exact Hnd|]. split.
  - intros g Hg.
    assert (Hk : In (cnt_Country_of_isolation g)
                   (keys (fold_left count_step
                      (map (fun row => (cell jC row, cell jS row)) (data dataset)) [])))
      by now apply in_map.
    apply Hkeys in Hk as [[]|(Hn & p & Hp & Hpk)].
    apply in_map_iff in Hp as (row & <- & Hrow). simpl in Hpk.
    split; [exact Hn|]. split; [eauto|].
    rewrite <- (group_total_member g _ Hnd Hg), Htot, filter_map_length. simpl.
    apply (f_equal (@length _)), filter_ext. intros r. unfold counted_in.
    destruct (bool_decide_reflect (cell jC r = cnt_Country_of_isolation g)) as [->|_];
      [|reflexivity].
    now rewrite Hn.
  - intros row Hrow Hn.
    assert (Hk : In (cell jC row)
                   (keys (fold_left count_step
                      (map (fun row => (cell jC row, cell jS row)) (data dataset)) []))).
    { apply Hkeys. right. split; [exact Hn|].
      exists (cell jC row, cell jS row). split; [|reflexivity].
      apply in_map_iff. eauto. }
    apply in_map_iff in Hk as (g & Hg & Hin). eauto.
Qed.

(** X18.  The per-country count has one group for each country that is on
    some row, none for the missing country, and no country twice; the number
    of a group is the number of rows of that country that have a sample
    name. *)
Theorem cnt_samples_per_country (dataset : DataFrame float) (jS jC : nat)
    (counts : list cnt_row) :
  loc dataset "Sample" = Ok jS ->
  loc dataset "Country of isolation" = Ok jC ->
  cnt_samples dataset = Ok counts ->
  NoDup (map cnt_Country_of_isolation counts)
  /\ (forall g, In g counts ->
        notna (cnt_Country_of_isolation g) = true
        /\ (exists row, In row (data dataset)
                        /\ cell jC row = cnt_Country_of_isolation g)
        /\ Number_of_Samples g
           = length (List.filter (counted_in jS jC (cnt_Country_of_isolation g))
                                 (data dataset)))
  /\ (forall row, In row (data dataset) -> notna (cell jC row) = true ->
        exists g, In g counts /\ cnt_Country_of_isolation g = cell jC row).
Proof. apply cnt_samples_groups. Qed.
End Groups.

Section Polygons.
Context {float : Type} `{PyFloat float}.

(** X19.  The choropleth frame has a row exactly for the shapes that have an
    id, a name and a geometry and whose name is the country of some row of
    the dataset; the row carries the shape's name and geometry and, as its
    number of samples, the number of dataset rows of that country that have
    a sample name. *)
Theorem polygons_counted (dataset : DataFrame float)
    (country_shapes : list shape_row) (regions : list region_row)
    (countries : list country_coords)
    (smp_data : list smp_row) (polys : list poly_row) (jS jC : nat) :
  get_mapping_data dataset country_shapes regions countries = Ok (smp_data, polys) ->
  loc dataset "Sample" = Ok jS ->
  loc dataset "Country of isolation" = Ok jC ->
  forall p, In p polys <->
    exists sh, In sh country_shapes
      /\ notna (shape_id sh) = true /\ notna (shape_name sh) = true
      /\ notna (geometry sh) = true
      /\ (exists row, In row (data dataset) /\ cell jC row = shape_name sh)
      /\ p = {| poly_Country := shape_name sh; poly_geometry := geometry sh;
                poly_Number_of_Samples :=
                  Z.of_nat (length (List.filter (counted_in jS jC (shape_name sh))
                                                (data dataset))) |}.
Proof.
  intros Hget HS HC p. unfold get_mapping_data in Hget.
  apply bind_Ok in Hget as (selected & _ & Hget). cbv zeta in Hget.
  apply bind_Ok in Hget as (counts & Hcnt & Hget).
  injection Hget as _ <-.
  destruct (cnt_samples_groups dataset jS jC counts HS HC Hcnt) as (Hnd & Hg & Hrows).
  rewrite <- list_elem_of_In, list_elem_of_omap. split.
  - intros ([sh og] & Hin & Hp).
    apply list_elem_of_filter in Hin as [Hfull Hin]. simpl in Hfull, Hp.
    apply list_elem_of_In, in_merge_left in Hin as (sh' & Hsh & Hcase).
    destruct Hcase as [(g & Hgin & Hk & Heq)|[_ Heq]]; injection Heq as -> ->;
      simpl in Hp; [|discriminate].
    injection Hp as <-.
    apply andb_true_iff in Hfull as [Hfull _].
    apply andb_true_iff in Hfull as [Hfull Hgeo].
    apply andb_true_iff in Hfull as [Hid Hname].
    destruct (Hg g Hgin) as (_ & Hrow & Hnum).
    exists sh'. rewrite Hk. repeat split; try assumption.
    + now rewrite <- Hk.
    + now rewrite Hnum.
  - intros (sh & Hsh & Hid & Hname & Hgeo & (row & Hrow & Hcell) & ->).
    assert (Hn : notna (cell jC row) = true) by now rewrite Hcell.
    destruct (Hrows row Hrow Hn) as (g & Hgin & Hk).
    rewrite Hcell in Hk. destruct (Hg g Hgin) as (_ & _ & Hnum).
    exists (sh, Some g). split.
    + apply list_elem_of_filter. split.
      * simpl. rewrite Hid, Hname, Hgeo. reflexivity.
      * apply list_elem_of_In, in_merge_left. exists sh. split; [exact Hsh|].
        left. exists g. auto.
    + simpl. now rewrite Hnum, Hk.
Qed.
End Polygons.

Lemma cnt_samples_per_country_witness :
  exists counts,
    cnt_samples three_samples = Ok counts
    /\ NoDup (map cnt_Country_of_isolation counts)
    /\ (forall g, In g counts ->
          notna (cnt_Country_of_isolation g) = true
          /\ (exists row, In row (data three_samples)
                          /\ cell 1 row = cnt_Country_of_isolation g)
          /\ Number_of_Samples g
             = length (List.filter (counted_in 0 1 (cnt_Country_of_isolation g))
                                   (data three_samples)))
    /\ (forall row, In row (data three_samples) -> notna (cell 1 row) = true ->
          exists g, In g counts /\ cnt_Country_of_isolation g = cell 1 row).
Proof.
  eexists. split; [reflexivity|].
  apply (cnt_samples_per_country three_samples 0 1); reflexivity.
Defined.

Lemma polygons_counted_witness :
  In india_polygon [india_polygon] <->
  exists sh, In sh one_shape
    /\ notna (shape_id sh) = true /\ notna (shape_name sh) = true
    /\ notna (geometry sh) = true
    /\ (exists row, In row (data three_samples) /\ cell 1 row = shape_name sh)
    /\ india_polygon
       = {| poly_Country := shape_name sh; poly_geometry := geometry sh;
            poly_Number_of_Samples :=
              Z.of_nat (length (List.filter (counted_in 0 1 (shape_name sh))
                                            (data three_samples))) |}.
Proof.
  eapply (polygons_counted three_samples one_shape one_region one_country);
    reflexivity.
Defined.

(** ** Phylogeny, continued *)

Lemma open_text_Ok (disk : gmap string entry) (path src : string) :
  open_text disk path = Ok src <->
  exists content, disk !! path = Some (RegularFile content)
    /\ utf8_valid content = true /\ src = universal_newlines content.
Proof.
  unfold open_text. split.
  - destruct (disk !! path) as [[content| |]|]; try discriminate.
    destruct (utf8_valid content) eqn:Hv; [|discriminate].
    intros Hs. injection Hs as <-. eauto.
  - intros (content & -> & -> & ->). reflexivity.
Qed.

Section Trees.
Context {float : Type}.

(** The run of a tree function, by the outcome of reading its file. *)
Lemma show_tree_cases (disk : gmap string entry) (path : string) (h w : Z) :
  (exists src, open_text disk path = Ok src
               /\ show_tree (float:=float) disk path h w = ([Html src h w true], Ok tt))
  \/ (exists e, open_text disk path = Raise e
                /\ show_tree (float:=float) disk path h w = ([], Raise e)).
Proof.
  unfold show_tree, lift. destruct (open_text disk path) as [src|e].
  - left. exists src. split; reflexivity.
  - right. exists e. split; reflexivity.
Qed.

Ltac tree_cases disk :=
  unfold arrange_tabs, show_lineage1_tree, show_lineage2_tree, show_lineage3_tree,
    show_lineage4_tree, show_lineage5_tree;
  destruct (show_tree_cases disk "./data/trees/lineage.1.tree.html" 1000 1800)
    as [(s1 & F1 & ->)|(e1 & F1 & ->)];
  destruct (show_tree_cases disk "./data/trees/lineage.2.tree.html" 1000 1800)
    as [(s2 & F2 & ->)|(e2 & F2 & ->)];
  destruct (show_tree_cases disk "./data/trees/lineage.3.tree.html" 1000 1800)
    as [(s3 & F3 & ->)|(e3 & F3 & ->)];
  destruct (show_tree_cases disk "./data/trees/lineage.4.tree.html" 1000 1800)
    as [(s4 & F4 & ->)|(e4 & F4 & ->)];
  destruct (show_tree_cases disk "./data/trees/lineage.5.Animal.tree.html" 1000 1600)
    as [(s5 & F5 & ->)|(e5 & F5 & ->)].


(** X21.  Whatever is on disk, every element the Phylogeny page draws is an
    HTML frame in one of the five tabs, and its source is the text of that
    tab's own file as read in text mode (UTF-8, line ends made line feeds): a
    tab is never filled from another file. *)
Theorem arrange_tabs_shows_files (disk : gmap string entry) (e : element float) :
  In e (trace (arrange_tabs disk)) ->
  exists tab path content h w,
    In (tab, path) tree_files
    /\ disk !! path = Some (RegularFile content)
    /\ utf8_valid content = true
    /\ e = Within tab (Html (universal_newlines content) h w true).
Proof.
  assert (Hread : forall tab path src h w, In (tab, path) tree_files ->
            open_text disk path = Ok src ->
            exists tab' path' content h' w',
              In (tab', path') tree_files
              /\ disk !! path' = Some (RegularFile content)
              /\ utf8_valid content = true
              /\ Within tab (Html (float:=float) src h w true)
                 = Within tab' (Html (universal_newlines content) h' w' true)).
  { intros tab path src h w Hin Hs. apply open_text_Ok in Hs as (c & Hc & Hv & ->).
    exists tab, path, c, h, w. auto. }
  tree_cases disk; cbn; intros Hin;
    repeat (destruct Hin as [<-|Hin];
            [first [ now apply (Hread "Lineage 1" _ _ _ _ ltac:(simpl; tauto) F1)
                   | now apply (Hread "Lineage 2" _ _ _ _ ltac:(simpl; tauto) F2)
                   | now apply (Hread "Lineage 3" _ _ _ _ ltac:(simpl; tauto) F3)
                   | now apply (Hread "Lineage 4" _ _ _ _ ltac:(simpl; tauto) F4)
                   | now apply (Hread "Lineage 5-Animal" _ _ _ _
                                  ltac:(simpl; tauto) F5) ] |]);
    destruct Hin.
Qed.
End Trees.

Lemma arrange_tabs_shows_files_witness :
  exists tab path content h w,
    In (tab, path) tree_files
    /\ trees_disk !! path = Some (RegularFile content)
    /\ utf8_valid content = true
    /\ Within "Lineage 1" (Html lf_tree 1000 1800 true)
       = Within tab (Html (float:=Empty_set) (universal_newlines content) h w true).
Proof.
  apply (arrange_tabs_shows_files trees_disk). vm_compute. tauto.
Defined.
